(** * rpc-controllers: metadata model and driver pipeline

    A shallow embedding of the metadata classes ([ControllerMetadata],
    [MethodMetadata]) and of the driver layer ([BaseDriver], [ExpressDriver],
    [KoaDriver]) of rpc-controllers, followed by the properties of the
    dispatch pipeline that are established on it.

    Layout: the model comes first (one module per source class), the
    properties after it. *)

From Stdlib Require Import String Ascii List ZArith Bool Arith Lia.
From Stdlib Require Import DecimalString.
Import ListNotations.

Set Warnings "-register-all".

Local Open Scope list_scope.
Local Open Scope string_scope.

(* ===================================================================== *)
(** * Part I: the model                                                   *)
(* ===================================================================== *)

(** ** JavaScript values

    Data values as the code sees them.  Objects are plain records: an
    association list in insertion order, which is the order [for..in] and
    [Object.keys] enumerate string keys in.  Members inherited from
    [Object.prototype] and non-integral numbers are outside the model; a
    function is identified by its source text. *)
Module Js.

Inductive value : Type :=
| VUndefined
| VNull
| VBool (b : bool)
| VNumber (n : Z)
| VString (s : string)
| VFunction (src : string)
| VObject (props : list (string * value)).

Definition props := list (string * value).

(** Exceptions the modelled code can raise. *)
Inductive exn : Type :=
| TypeError (msg : string)
| Error (msg : string)
| Constructed (ctor : string).     (* [throw new (f as any)(options)] *)

(** Completion of a pure computation: a value or a raised exception. *)
Inductive completion (A : Type) : Type :=
| Normal (a : A)
| Throw (e : exn).
Arguments Normal {A} a.
Arguments Throw {A} e.

Definition cbind {A B} (c : completion A) (k : A -> completion B) : completion B :=
  match c with
  | Normal a => k a
  | Throw e => Throw e
  end.

(** ToBoolean. *)
Definition truthy (v : value) : bool :=
  match v with
  | VUndefined | VNull => false
  | VBool b => b
  | VNumber n => negb (n =? 0)%Z
  | VString s => negb (s =? "")
  | VFunction _ | VObject _ => true
  end.

(** The [typeof] operator. *)
Definition typeof (v : value) : string :=
  match v with
  | VUndefined => "undefined"
  | VNull => "object"
  | VBool _ => "boolean"
  | VNumber _ => "number"
  | VString _ => "string"
  | VFunction _ => "function"
  | VObject _ => "object"
  end.

(** [v instanceof Function] and [v instanceof Object]. *)
Definition instanceof_Function (v : value) : bool :=
  match v with VFunction _ => true | _ => false end.

Definition instanceof_Object (v : value) : bool :=
  match v with VFunction _ | VObject _ => true | _ => false end.

Definition is_nullish (v : value) : bool :=
  match v with VUndefined | VNull => true | _ => false end.

(** Own-property operations on an association list. *)
Fixpoint has_key (k : string) (ps : props) : bool :=
  match ps with
  | [] => false
  | (k', _) :: rest => (k' =? k) || has_key k rest
  end.

Fixpoint lookup (k : string) (ps : props) : option value :=
  match ps with
  | [] => None
  | (k', v) :: rest => if k' =? k then Some v else lookup k rest
  end.

(** [o[k] = v]: overwrite in place when the key exists, append otherwise. *)
Fixpoint set_prop (k : string) (v : value) (ps : props) : props :=
  match ps with
  | [] => [(k, v)]
  | (k', v') :: rest =>
      if k' =? k then (k', v) :: rest else (k', v') :: set_prop k v rest
  end.

Definition keys (ps : props) : list string := map fst ps.

(** The characters of a string as index-keyed properties. *)
Definition string_of_nat (n : nat) : string :=
  NilZero.string_of_uint (Nat.to_uint n).

Fixpoint chars_from (i : nat) (s : string) : props :=
  match s with
  | EmptyString => []
  | String c rest => (string_of_nat i, VString (String c EmptyString)) :: chars_from (S i) rest
  end.

(** What [for (let i in v)] enumerates, with the value found under each key. *)
Definition for_in (v : value) : props :=
  match v with
  | VObject ps => ps
  | VString s => chars_from 0 s
  | _ => []
  end.

(** [v[k]] for a value that is not nullish; a missing member reads as
    [undefined]. *)
Definition member (v : value) (k : string) : value :=
  match lookup k (for_in v) with
  | Some x => x
  | None => VUndefined
  end.

(** [v.k] in general: reading a member of [undefined] or [null] throws. *)
Definition get (v : value) (k : string) : completion value :=
  if is_nullish v
  then Throw (TypeError ("Cannot read property '" ++ k ++ "' of " ++
                         (match v with VNull => "null" | _ => "undefined" end)))
  else Normal (member v k).

(** [k in v]: only defined on objects. *)
Definition js_in (k : string) (v : value) : completion bool :=
  match v with
  | VObject ps => Normal (has_key k ps)
  | VFunction _ => Normal false
  | _ => Throw (TypeError ("Cannot use 'in' operator to search for '" ++ k ++ "'"))
  end.

(** [Object.keys(v)]. *)
Definition Object_keys (v : value) : completion (list string) :=
  if is_nullish v
  then Throw (TypeError "Cannot convert undefined or null to object")
  else Normal (keys (for_in v)).

(** ToString, as used when a value becomes a property key. *)
Definition ToString (v : value) : string :=
  match v with
  | VUndefined => "undefined"
  | VNull => "null"
  | VBool true => "true"
  | VBool false => "false"
  | VNumber n => NilZero.string_of_int (Z.to_int n)
  | VString s => s
  | VFunction src => src
  | VObject _ => "[object Object]"
  end.

(** [String.prototype.toLowerCase] on ASCII letters. *)
Definition lower_ascii (c : ascii) : ascii :=
  let n := nat_of_ascii c in
  if (65 <=? n)%nat && (n <=? 90)%nat then ascii_of_nat (n + 32) else c.

Fixpoint toLowerCase (s : string) : string :=
  match s with
  | EmptyString => EmptyString
  | String c rest => String (lower_ascii c) (toLowerCase rest)
  end.

(** [s.substr(start)]: the suffix from position [start]. *)
Fixpoint substr (start : nat) (s : string) : string :=
  match start, s with
  | O, _ => s
  | S n, EmptyString => EmptyString
  | S n, String _ rest => substr n rest
  end.

(** [s.indexOf(pat)]: first position of [pat] in [s], or -1. *)
Definition indexOf (s pat : string) : Z :=
  match index 0 pat s with
  | Some i => Z.of_nat i
  | None => (-1)%Z
  end.

(** [s.includes(pat)]. *)
Definition includes (s pat : string) : bool :=
  match index 0 pat s with Some _ => true | None => false end.

End Js.
Import Js.

(** ** Routes: literal strings and patterns *)
Module Route.

(** A [RegExp] value, represented by its [source] text and its [flags];
    for a literal [/body/flags] these are [body] and [flags].  The source
    of a constructed pattern is the text handed to the constructor (the
    engine's own escaping and its rejection of ill-formed patterns are not
    modelled). *)
Record RegExp : Type := mkRegExp { source : string; flags : string }.

(** [RegExp.prototype.toString]. *)
Definition RegExp_toString (r : RegExp) : string :=
  "/" ++ source r ++ "/" ++ flags r.

(** [string | RegExp]. *)
Inductive route : Type :=
| RouteString (s : string)
| RoutePattern (r : RegExp).

(** The [prefix] local of [appendBaseRoute]. *)
Definition basePrefix (baseRoute : string) : string :=
  (if (0 <? String.length baseRoute)%nat && (indexOf baseRoute "/" <? 0)%Z
   then "/" else "") ++ baseRoute.

(** [MethodMetadata.appendBaseRoute] (static). *)
Definition appendBaseRoute (baseRoute : string) (name : route) : route :=
  let prefix := basePrefix baseRoute in
  match name with
  | RouteString s => RouteString (prefix ++ s)
  | RoutePattern r =>
      if negb (truthy (VString baseRoute)) || (baseRoute =? "") then RoutePattern r
      else
        let fullPath := "^" ++ prefix ++ substr 1 (RegExp_toString r) ++ "?$" in
        RoutePattern (mkRegExp fullPath (flags r))
  end.



End Route.
Import Route.


(** ** Metadata: response handlers, parameters, methods and controllers *)
Module Metadata.

(** Modelled from the spec: [ResponseHandlerMetadata], whose declaration is
    not among the sources; a directive with its kind, its primary and
    secondary value and the method it is attached to, under the member names
    the builders read. *)
Record ResponseHandlerMetadata : Type := mkResponseHandler {
  rh_type : string;            (* handler.type *)
  rh_value : value;            (* handler.value *)
  rh_secondaryValue : value;   (* handler.secondaryValue *)
  rh_method : value            (* handler.method: a method name, or undefined *)
}.

(** Modelled from the spec: [ParamMetadata], whose declaration is not among
    the sources; a source kind, an optional name and the required flag, under
    the member names the drivers read. *)
Record ParamMetadata : Type := mkParam {
  p_type : string;             (* param.type *)
  p_name : option string;      (* param.name; [None] is undefined *)
  p_required : bool            (* param.required *)
}.

(** [ApplicationOptions.defaults]. *)
Record Defaults : Type := mkDefaults {
  d_nullResultCode : value;
  d_undefinedResultCode : value
}.

(** [ApplicationOptions], through the member [MethodMetadata] reads. *)
Record ApplicationOptions : Type := mkOptions {
  defaults : option Defaults   (* [None] is undefined *)
}.

(** What a method reaches through its [controllerMetadata] back-reference:
    the controller's own scalar members.  The reference is not owning, the
    method list lives in [ControllerMetadata] below. *)
Record ControllerRef : Type := mkControllerRef {
  cr_target : string;          (* class identity *)
  cr_name : string             (* base name of all methods of the controller *)
}.

(** [MethodMetadata].  Members that no constructor assigns start out as
    [undefined]. *)
Record MethodMetadata : Type := mkMethod {
  controllerMetadata : ControllerRef;
  params : list ParamMetadata;
  target : string;
  method : string;
  type : string;
  name : route;
  fullRoute : option route;
  responseClassTransformOptions : value;
  undefinedResultCode : value;
  nullResultCode : value;
  successHttpCode : value;
  headers : value;
  bodyExtraOptions : value;
  options : ApplicationOptions
}.

(** The constructor; [params] is filled in by the metadata builder before
    [build] runs. *)
Definition newMethodMetadata (c : ControllerRef) (a_name : route)
    (a_target a_method a_type : string) (opts : ApplicationOptions) : MethodMetadata :=
  mkMethod c [] a_target a_method a_type a_name None
           VUndefined VUndefined VUndefined VUndefined VUndefined VUndefined opts.

(** Member assignments [this.f = v]. *)
Definition set_responseClassTransformOptions (v : value) (m : MethodMetadata) :=
  mkMethod (controllerMetadata m) (params m) (target m) (method m) (type m) (name m)
           (fullRoute m) v (undefinedResultCode m) (nullResultCode m)
           (successHttpCode m) (headers m) (bodyExtraOptions m) (options m).

Definition set_undefinedResultCode (v : value) (m : MethodMetadata) :=
  mkMethod (controllerMetadata m) (params m) (target m) (method m) (type m) (name m)
           (fullRoute m) (responseClassTransformOptions m) v (nullResultCode m)
           (successHttpCode m) (headers m) (bodyExtraOptions m) (options m).

Definition set_nullResultCode (v : value) (m : MethodMetadata) :=
  mkMethod (controllerMetadata m) (params m) (target m) (method m) (type m) (name m)
           (fullRoute m) (responseClassTransformOptions m) (undefinedResultCode m) v
           (successHttpCode m) (headers m) (bodyExtraOptions m) (options m).

Definition set_successHttpCode (v : value) (m : MethodMetadata) :=
  mkMethod (controllerMetadata m) (params m) (target m) (method m) (type m) (name m)
           (fullRoute m) (responseClassTransformOptions m) (undefinedResultCode m)
           (nullResultCode m) v (headers m) (bodyExtraOptions m) (options m).

Definition set_fullRoute (r : route) (m : MethodMetadata) :=
  mkMethod (controllerMetadata m) (params m) (target m) (method m) (type m) (name m)
           (Some r) (responseClassTransformOptions m) (undefinedResultCode m)
           (nullResultCode m) (successHttpCode m) (headers m) (bodyExtraOptions m)
           (options m).

Definition set_headers (h : value) (m : MethodMetadata) :=
  mkMethod (controllerMetadata m) (params m) (target m) (method m) (type m) (name m)
           (fullRoute m) (responseClassTransformOptions m) (undefinedResultCode m)
           (nullResultCode m) (successHttpCode m) h (bodyExtraOptions m) (options m).

(** [responseHandlers.find(handler => handler.type === t)]. *)
Definition find_handler (t : string) (responseHandlers : list ResponseHandlerMetadata)
    : option ResponseHandlerMetadata :=
  find (fun handler => rh_type handler =? t) responseHandlers.

(** [MethodMetadata.buildFullRoute]. *)
Definition buildFullRoute (this : MethodMetadata) : route :=
  match name this with
  | RoutePattern r =>
      if truthy (VString (cr_name (controllerMetadata this)))
      then appendBaseRoute (cr_name (controllerMetadata this)) (RoutePattern r)
      else RoutePattern r
  | RouteString s =>
      let path := "" in
      let path := if truthy (VString (cr_name (controllerMetadata this)))
                  then path ++ cr_name (controllerMetadata this) else path in
      let path := if truthy (VString s) then path ++ s else path in
      RouteString path
  end.

(** [MethodMetadata.buildHeaders]. *)
Definition buildHeaders (responseHandlers : list ResponseHandlerMetadata) : value :=
  let contentTypeHandler := find_handler "content-type" responseHandlers in
  let headers : props := [] in
  let headers := match contentTypeHandler with
                 | Some h => set_prop "Content-type" (rh_value h) headers
                 | None => headers
                 end in
  let headerHandlers := filter (fun handler => rh_type handler =? "header") responseHandlers in
  let headers := fold_left
                   (fun hs handler =>
                      set_prop (ToString (rh_value handler)) (rh_secondaryValue handler) hs)
                   headerHandlers headers in
  VObject headers.

(** [MethodMetadata.build], as a transformer of the receiver. *)
Definition build (responseHandlers : list ResponseHandlerMetadata)
    (this : MethodMetadata) : MethodMetadata :=
  let classTransformerResponseHandler :=
    find_handler "response-class-transform-options" responseHandlers in
  let undefinedResultHandler := find_handler "on-undefined" responseHandlers in
  let nullResultHandler := find_handler "on-null" responseHandlers in
  let successCodeHandler := find_handler "success-code" responseHandlers in
  let redirectHandler := find_handler "redirect" responseHandlers in
  let renderedTemplateHandler := find_handler "rendered-template" responseHandlers in
  let authorizedHandler := find_handler "authorized" responseHandlers in
  let contentTypeHandler := find_handler "content-type" responseHandlers in
  let bodyParam := find (fun param => p_type param =? "body") (params this) in
  let this := match classTransformerResponseHandler with
              | Some h => set_responseClassTransformOptions (rh_value h) this
              | None => this
              end in
  let this := set_undefinedResultCode
                (match undefinedResultHandler with
                 | Some h => rh_value h
                 | None => match defaults (options this) with
                           | Some d => d_undefinedResultCode d
                           | None => VUndefined
                           end
                 end) this in
  let this := set_nullResultCode
                (match nullResultHandler with
                 | Some h => rh_value h
                 | None => match defaults (options this) with
                           | Some d => d_nullResultCode d
                           | None => VUndefined
                           end
                 end) this in
  let this := match successCodeHandler with
              | Some h => set_successHttpCode (rh_value h) this
              | None => this
              end in
  let this := set_fullRoute (buildFullRoute this) this in
  set_headers (buildHeaders responseHandlers) this.

(** [ControllerMetadata]. *)
Record ControllerMetadata : Type := mkController {
  c_methods : list MethodMetadata;
  c_target : string;
  c_name : string
}.

(** [ControllerMetadata.build]: state-passing over the receiver, which no
    statement of the body assigns. *)
Definition controller_build (responseHandlers : list ResponseHandlerMetadata)
    (this : ControllerMetadata) : ControllerMetadata :=
  let authorizedHandler :=
    find (fun handler => (rh_type handler =? "authorized") && negb (truthy (rh_method handler)))
         responseHandlers in
  this.

End Metadata.
Import Metadata.


(** ** The runtime a driver works against *)
Module Runtime.

(** Host objects, told apart by what the drivers test on them. *)
Inductive hostkind : Type :=
| KBuffer (bytes : list Byte.byte)       (* instanceof Buffer, hence Uint8Array *)
| KUint8Array (bytes : list Byte.byte)   (* a typed array that is no Buffer *)
| KStream                                (* its [pipe] member is a function *)
| KOther.                                (* any other object, e.g. a response *)

(** What a controller method hands back: plain data, or a host object with
    an identity ([ref]) that [===] compares. *)
Inductive returned : Type :=
| Data (v : value)
| HostObject (ref : nat) (k : hostkind).

(** The incoming request, through the members [getParamFromRequest] and the
    route handler read. *)
Record Request : Type := mkRequest {
  r_method : string;
  r_body : value;
  r_params : value;
  r_session : value;
  r_query : value;
  r_headers : value;
  r_file : value;
  r_files : value
}.

(** Modelled from the spec: the [Method] handle passed around per request,
    whose declaration is not among the sources; it carries the request, the
    response, the context where the host has one, and the continuation.
    [response], [context] and [next] are references to host objects. *)
Record Method : Type := mkHandle {
  request : Request;
  response : nat;
  context : option nat;
  next : nat
}.

(** Calls into the host framework, in program order. *)
Inductive event : Type :=
| CallNext (k : nat)                                   (* options.next() *)
| SetStatus (res : nat) (code : value)                 (* response.status(code) *)
| SetHeader (res : nat) (name : string) (v : value)    (* response.header / response.set *)
| EndBinary (res : nat) (bytes : list Byte.byte)       (* response.end(buf, "binary") *)
| PipeTo (src : returned) (res : nat)                    (* result.pipe(response) *)
| SendJson (res : nat) (body : returned).                (* response.json(result) *)

(** Effectful code: the host calls made so far, and how the code completed. *)
Definition M (A : Type) : Type := (list event * completion A)%type.

Definition trace_of {A} (m : M A) : list event := fst m.

Definition outcome_of {A} (m : M A) : completion A := snd m.

Definition ret {A} (a : A) : M A := ([], Normal a).

Definition bind {A B} (m : M A) (k : A -> M B) : M B :=
  match m with
  | (t, Normal a) => ((t ++ trace_of (k a))%list, outcome_of (k a))
  | (t, Throw e) => (t, Throw e)
  end.

Definition emit (e : event) : M unit := ([e], Normal tt).

Definition throw {A} (e : exn) : M A := ([], Throw e).

Definition lift {A} (c : completion A) : M A := ([], c).

(** [xs.forEach(f)]. *)
Fixpoint forEach {A} (f : A -> M unit) (xs : list A) : M unit :=
  match xs with
  | [] => ret tt
  | x :: rest => bind (f x) (fun _ => forEach f rest)
  end.

(** How often control was handed to continuation [k]. *)
Definition is_next (k : nat) (e : event) : bool :=
  match e with CallNext k' => (k' =? k)%nat | _ => false end.

Definition count_next (k : nat) (t : list event) : nat :=
  List.length (filter (is_next k) t).

(** Observations on a result. *)
Definition truthy_r (r : returned) : bool :=
  match r with Data v => truthy v | HostObject _ _ => true end.

Definition is_undefined (r : returned) : bool :=
  match r with Data VUndefined => true | _ => false end.

Definition is_null (r : returned) : bool :=
  match r with Data VNull => true | _ => false end.

Definition nullish_r (r : returned) : bool := is_undefined r || is_null r.

(** [result === options.response] (also used for the context). *)
Definition same_object (r : returned) (ref : nat) : bool :=
  match r with HostObject ref' _ => (ref' =? ref)%nat | Data _ => false end.

Definition same_object_opt (r : returned) (ref : option nat) : bool :=
  match ref with Some x => same_object r x | None => false end.

Definition instanceof_Object_r (r : returned) : bool :=
  match r with Data v => instanceof_Object v | HostObject _ _ => true end.

Definition instanceof_Buffer (r : returned) : bool :=
  match r with HostObject _ (KBuffer _) => true | _ => false end.

Definition instanceof_Uint8Array (r : returned) : bool :=
  match r with
  | HostObject _ (KBuffer _) | HostObject _ (KUint8Array _) => true
  | _ => false
  end.

Definition bytes_of (r : returned) : list Byte.byte :=
  match r with
  | HostObject _ (KBuffer b) | HostObject _ (KUint8Array b) => b
  | _ => []
  end.

(** [result.pipe instanceof Function]; the member read throws on a nullish
    result. *)
Definition pipe_is_function (r : returned) : completion bool :=
  match r with
  | Data v => cbind (get v "pipe") (fun p => Normal (instanceof_Function p))
  | HostObject _ KStream => Normal true
  | HostObject _ _ => Normal false
  end.

(** [a || b] on values. *)
Definition js_or (a b : value) : value := if truthy a then a else b.

(** [throw new (code as any)(options)]. *)
Definition throw_constructed {A} (code : value) : M A :=
  throw (Constructed (ToString code)).

(** [Object.keys(method.headers).forEach(name => response.header(name, ...))]
    (express) or [... response.set(name, ...)] (koa). *)
Definition apply_headers (method : MethodMetadata) (res : nat) : M unit :=
  bind (lift (Object_keys (headers method)))
       (forEach (fun name => emit (SetHeader res name (member (headers method) name)))).

End Runtime.
Import Runtime.

Declare Scope driver_scope.
Delimit Scope driver_scope with driver.
Notation "x <- m ;; k" := (bind m (fun x => k))
  (at level 61, m at next level, right associativity) : driver_scope.
Notation "m ;; k" := (bind m (fun _ => k))
  (at level 61, right associativity) : driver_scope.
Notation "x <~ c ;; k" := (cbind c (fun x => k))
  (at level 61, c at next level, right associativity) : driver_scope.
Local Open Scope driver_scope.


(** ** BaseDriver *)
Module BaseDriver.

(** The driver's configuration members. *)
Record Driver : Type := mkDriver {
  useClassTransformer : bool;
  classToPlainTransformOptions : value;
  isDefaultErrorHandlingEnabled : bool;
  developmentMode : bool;
  routePrefix : string;
  errorOverridingMap : option props      (* [None] is undefined *)
}.

(** A thrown object, through the members [processJsonError] reads. *)
Record ErrorObject : Type := mkError {
  e_toJSON : option value;      (* [Some v]: [error.toJSON] is a function returning [v] *)
  e_isError : bool;             (* error instanceof Error *)
  e_isRpcError : bool;          (* error instanceof RpcError *)
  e_name : string;              (* error.name *)
  e_constructorName : string;   (* error.constructor.name *)
  e_message : value;            (* error.message *)
  e_stack : value;              (* error.stack *)
  e_rpcCode : value;            (* error.rpcCode *)
  e_own : props                 (* Object.keys(error), each with error[key] *)
}.

(** What reaches [processJsonError]: a thrown string or a thrown object. *)
Inductive thrown : Type :=
| ThrownString (s : string)
| ThrownObject (e : ErrorObject).

(** A thrown value handed back as it is, seen as data. *)
Definition as_value (t : thrown) : value :=
  match t with
  | ThrownString s => VString s
  | ThrownObject e => VObject (e_own e)
  end.

(** The first loop of [merge], over the enumerable keys of [obj1]: a key
    that is also in [obj2] and holds an object is merged recursively, any
    other is copied.  [chars] is the case of a string [obj1], whose members
    are one-character strings and so are always copied. *)
Definition first_loop (merge : value -> value -> completion value) (obj2 : value)
    : props -> props -> completion props :=
  fix loop (ps : props) (result : props) {struct ps} : completion props :=
    match ps with
    | [] => Normal result
    | (i, x) :: rest =>
        b <~ js_in i obj2 ;;
        (* the third conjunct, [i !== null], holds for every key *)
        if b && (typeof x =? "object")
        then r <~ merge x (member obj2 i) ;; loop rest (set_prop i r result)
        else loop rest (set_prop i x result)
    end.

Fixpoint first_loop_chars (obj2 : value) (chars : props) (result : props)
    : completion props :=
  match chars with
  | [] => Normal result
  | (i, x) :: rest =>
      b <~ js_in i obj2 ;;
      first_loop_chars obj2 rest (set_prop i x result)
  end.

(** The second loop of [merge]: every enumerable key of [obj2] is assigned. *)
Definition second_loop (obj2 : value) (result : props) : props :=
  fold_left (fun result kv => set_prop (fst kv) (snd kv) result) (for_in obj2) result.

(** [BaseDriver.merge]; the text is the same in both revisions of the class. *)
Fixpoint merge (obj1 obj2 : value) {struct obj1} : completion value :=
  result <~ match obj1 with
            | VObject ps => first_loop merge obj2 ps []
            | VString s => first_loop_chars obj2 (chars_from 0 s) []
            | _ => Normal []
            end ;;
  Normal (VObject (second_loop obj2 result)).

(** The merge policy as the specification words it: keys whose values are
    objects on both sides are merged recursively, on any other key present on
    both sides the right side wins, keys of one side only are kept. *)
Definition is_object (v : value) : bool :=
  match v with VObject _ => true | _ => false end.

Definition spec_merge_props (rec : value -> value -> value) (ps2 : props)
    : props -> props :=
  fix loop (ps1 : props) {struct ps1} : props :=
    match ps1 with
    | [] => []
    | (k, v1) :: rest =>
        (k, match lookup k ps2 with
            | Some v2 => if is_object v1 && is_object v2 then rec v1 v2 else v2
            | None => v1
            end) :: loop rest
    end.

Fixpoint spec_merge (obj1 obj2 : value) {struct obj1} : value :=
  match obj1, obj2 with
  | VObject ps1, VObject ps2 =>
      VObject (spec_merge_props spec_merge ps2 ps1
               ++ filter (fun kv => negb (has_key (fst kv) ps1)) ps2)%list
  | _, _ => obj2
  end.

(** The keys [processJsonError] never copies from the error. *)
Definition reserved (is_rpc : bool) (key : string) : bool :=
  negb (key =? "stack") && negb (key =? "name") && negb (key =? "message")
  && (negb is_rpc || negb (key =? "httpCode")).

Definition reserved_rpc (key : string) : bool :=
  negb (key =? "stack") && negb (key =? "name") && negb (key =? "message")
  && negb (key =? "rpcCode").

(** [keys.forEach(key => target[key] = error[key])]. *)
Definition copy_props (src : props) (target : props) : props :=
  fold_left (fun acc kv => set_prop (fst kv) (snd kv) acc) src target.

Section Collaborators.

(** External collaborators: class-transformer's [classToPlain], and the two
    members of the rpc-error classes that [processJsonError] touches. *)
Variable classToPlain : returned -> value -> returned.
Variable InternalError_new : string -> ErrorObject.   (* new InternalError(msg) *)
Variable ServerError_rpcCode : value.                 (* new ServerError().rpcCode *)

(** The [shouldTransform] local of [transformResult] (both revisions). *)
Definition shouldTransform (this : Driver) (result : returned) : completion bool :=
  if useClassTransformer this && negb (nullish_r result)
  then if instanceof_Object_r result
       then if instanceof_Uint8Array result then Normal false
            else p <~ pipe_is_function result ;; Normal (negb p)
       else Normal false
  else Normal false.

(** [BaseDriver.transformResult] of src/driver/BaseDriver.ts. *)
Definition transformResult (this : Driver) (result : returned)
    (method : MethodMetadata) (action : Method) : M returned :=
  should <- lift (shouldTransform this result) ;;
  if should
  then
    let action' := js_or (responseClassTransformOptions method)
                         (classToPlainTransformOptions this) in
    ret (classToPlain result action')
  else if instanceof_Buffer result || instanceof_Uint8Array result
  then ret (Data (VString (string_of_list_byte (bytes_of result))))
  else
    p <- lift (pipe_is_function result) ;;
    if p then emit (PipeTo result (response action)) ;; ret result
    else ret result.

(** The part of [processJsonError] (src/driver/BaseDriver.ts) that its three
    branches share: message, data, stack and the copied own properties. *)
Definition envelope (this : Driver) (code : value) (error : ErrorObject) : value :=
  let processedError : props := [] in
  let processedError := set_prop "code" code processedError in
  let processedError :=
    if truthy (e_message error)
    then set_prop "message" (e_message error) processedError
    else processedError in
  (* [processedError.data] aliases the object filled in below *)
  let data : props := [] in
  let data :=
    if truthy (e_stack error) && developmentMode this
    then set_prop "stack" (e_stack error) data
    else data in
  let data := copy_props (filter (fun kv => reserved_rpc (fst kv)) (e_own error)) data in
  let processedError := set_prop "data" (VObject data) processedError in
  if (0 <? List.length (keys processedError))%nat then VObject processedError else VUndefined.

(** [BaseDriver.processJsonError] of src/driver/BaseDriver.ts. *)
Definition processJsonError (this : Driver) (error : thrown) : completion value :=
  match error with
  | ThrownObject e =>
      if e_isRpcError e
      then Normal (envelope this (e_rpcCode e) e)
      else Normal (envelope this ServerError_rpcCode e)
  | ThrownString s =>
      let error := InternalError_new s in
      Normal (envelope this (e_rpcCode error) error)
  end.

End Collaborators.

End BaseDriver.
Import BaseDriver.

(** ** BaseDriver, the revision with [errorOverridingMap]

    The base class exists in a second revision, whose abstract signatures
    are the ones [ExpressDriver] and [KoaDriver] implement.  Its
    [transformResult] stops after the transformation, its [processJsonError]
    classifies by name and applies the override map; [merge] is unchanged. *)
Module BaseDriverOverrides.

Section Collaborators.

Variable classToPlain : returned -> value -> returned.

(** [BaseDriver.transformResult]: no branch after the transformation. *)
Definition transformResult (this : Driver) (result : returned)
    (action : MethodMetadata) (options : Method) : M returned :=
  should <- lift (shouldTransform this result) ;;
  if should
  then
    let options' := js_or (responseClassTransformOptions action)
                          (classToPlainTransformOptions this) in
    ret (classToPlain result options')
  else ret result.

End Collaborators.

(** The classified name of an error. *)
Definition classified_name (error : ErrorObject) : string :=
  if truthy (VString (e_name error)) && negb (e_name error =? "Error")
  then e_name error else e_constructorName error.

(** The override step: every key of the map equal to the name merges its
    entry into the envelope built so far. *)
Fixpoint apply_overrides (name : string) (entries : props) (processedError : value)
    : completion value :=
  match entries with
  | [] => Normal processedError
  | (key, entry) :: rest =>
      if name =? key
      then merged <~ merge processedError entry ;; apply_overrides name rest merged
      else apply_overrides name rest processedError
  end.

(** [BaseDriver.processJsonError]. *)
Definition processJsonError (this : Driver) (error : thrown) : completion value :=
  match error with
  | ThrownString s => Normal (VString s)
  | ThrownObject e =>
      match e_toJSON e with
      | Some json => Normal json
      | None =>
          if e_isError e
          then
            let name := classified_name e in
            let processedError : props := [] in
            let processedError := set_prop "name" (VString name) processedError in
            let processedError :=
              if truthy (e_message e)
              then set_prop "message" (e_message e) processedError
              else processedError in
            let processedError :=
              if truthy (e_stack e) && developmentMode this
              then set_prop "stack" (e_stack e) processedError
              else processedError in
            let processedError :=
              copy_props (filter (fun kv => reserved (e_isRpcError e) (fst kv)) (e_own e))
                         processedError in
            merged <~ match errorOverridingMap this with
                      | Some entries => apply_overrides name entries (VObject processedError)
                      | None => Normal (VObject processedError)
                      end ;;
            Normal (if (0 <? List.length (keys (for_in merged)))%nat
                    then merged else VUndefined)
          else Normal (as_value error)
      end
  end.

End BaseDriverOverrides.


(** ** ExpressDriver *)
Module ExpressDriver.

(** The middleware [registerMethod] puts in front of the route handler. *)
Inductive middleware : Type :=
| BodyParserJson (opts : value).      (* loadBodyParser().json(bodyExtraOptions) *)

(** The argument list of the registration call on the express app. *)
Record Registration : Type := mkRegistration {
  reg_route : string;
  reg_middlewares : list middleware;
  reg_handler : Request -> nat -> nat -> M value
}.

Section Callbacks.

Variable executeCallback : Method -> M value.

(** The [routeHandler] closure of [registerMethod]. *)
Definition routeHandler (methodMetadata : MethodMetadata)
    (request : Request) (response next : nat) : M value :=
  if negb (toLowerCase (r_method request) =? type methodMetadata)
  then emit (CallNext next) ;; ret VUndefined
  else executeCallback (mkHandle request response None next).

(** [ExpressDriver.registerMethod]. *)
Definition registerMethod (this : Driver) (methodMetadata : MethodMetadata) : Registration :=
  let defaultMiddlewares := [BodyParserJson (bodyExtraOptions methodMetadata)] in
  let route := routePrefix this ++ "*" in
  mkRegistration route defaultMiddlewares (routeHandler methodMetadata).

End Callbacks.

(** [param.name] used as a property key. *)
Definition name_key (param : ParamMetadata) : string :=
  match p_name param with Some n => n | None => "undefined" end.

Definition name_truthy (param : ParamMetadata) : bool :=
  match p_name param with Some n => truthy (VString n) | None => false end.

(** [ExpressDriver.getParamFromRequest]. *)
Definition getParamFromRequest (action : Method) (param : ParamMetadata) : completion value :=
  let request := request action in
  let t := p_type param in
  if t =? "body" then Normal (r_body request)
  else if t =? "body-param" then get (r_body request) (name_key param)
  else if t =? "param" then get (r_params request) (name_key param)
  else if t =? "params" then Normal (r_params request)
  else if t =? "session" then
    if name_truthy param then get (r_session request) (name_key param)
    else Normal (r_session request)
  else if t =? "state" then
    Throw (Error "@State decorators are not supported by express driver.")
  else if t =? "query" then get (r_query request) (name_key param)
  else if t =? "queries" then Normal (r_query request)
  else if t =? "header" then
    match p_name param with
    | Some n => get (r_headers request) (toLowerCase n)
    | None => Throw (TypeError "Cannot read property 'toLowerCase' of undefined")
    end
  else if t =? "headers" then Normal (r_headers request)
  else if t =? "file" then Normal (r_file request)
  else if t =? "files" then Normal (r_files request)
  else Normal VUndefined.

Section Transform.

(** [this.transformResult], inherited from the base class. *)
Variable transformResult : Driver -> returned -> MethodMetadata -> Method -> M returned.

(** [ExpressDriver.handleSuccess].  [method] is an object, so the regular
    branch always answers with [response.json]. *)
Definition handleSuccess (this : Driver) (result : returned)
    (method : MethodMetadata) (options : Method) : M unit :=
  if truthy_r result && same_object result (response options)
  then emit (CallNext (next options))
  else
    result <- transformResult this result method options ;;
    (* set http status code *)
    (if is_undefined result && truthy (undefinedResultCode method)
     then
       if instanceof_Function (undefinedResultCode method)
       then throw_constructed (undefinedResultCode method)
       else emit (SetStatus (response options) (undefinedResultCode method))
     else if is_null result
     then
       if truthy (nullResultCode method)
       then
         if instanceof_Function (nullResultCode method)
         then throw_constructed (nullResultCode method)
         else emit (SetStatus (response options) (nullResultCode method))
       else emit (SetStatus (response options) (VNumber 204))
     else if truthy (successHttpCode method)
     then emit (SetStatus (response options) (successHttpCode method))
     else ret tt) ;;
    (* apply http headers *)
    apply_headers method (response options) ;;
    if is_undefined result
    then
      if truthy (undefinedResultCode method)
      then emit (CallNext (next options))
      else ret tt
    else if is_null result
    then emit (CallNext (next options))
    else if instanceof_Buffer result
    then emit (EndBinary (response options) (bytes_of result))
    else if instanceof_Uint8Array result
    then emit (EndBinary (response options) (bytes_of result))
    else
      p <- lift (pipe_is_function result) ;;
      if p
      then emit (PipeTo result (response options))
      else
        emit (SendJson (response options) result) ;;
        emit (CallNext (next options)).

End Transform.

End ExpressDriver.

(** ** KoaDriver *)
Module KoaDriver.

Section Transform.

Variable transformResult : Driver -> returned -> MethodMetadata -> Method -> M returned.

(** [KoaDriver.handleSuccess]. *)
Definition handleSuccess (this : Driver) (result : returned)
    (action : MethodMetadata) (options : Method) : M unit :=
  if truthy_r result
     && (same_object result (response options) || same_object_opt result (context options))
  then emit (CallNext (next options))
  else
    result <- transformResult this result action options ;;
    (if is_undefined result
     then
       if instanceof_Function (undefinedResultCode action)
       then throw_constructed (undefinedResultCode action)
       else ret tt
     else ret tt) ;;
    (* apply http headers *)
    apply_headers action (response options) ;;
    emit (CallNext (next options)).

End Transform.

End KoaDriver.


(** ** Vocabulary of the properties *)
Module Vocabulary.

(** A plain [Error]: an instance of [Error] that is no [RpcError] and has no
    [toJSON] of its own. *)
Definition plain_error (e : ErrorObject) : bool :=
  match e_toJSON e with Some _ => false | None => true end
  && e_isError e && negb (e_isRpcError e).

(** The envelope has a [stack] key. *)
Definition has_stack (envelope : value) : bool := has_key "stack" (for_in envelope).

(** No entry of the override map under [name] has a [stack] key of its own. *)
Definition no_stack_override (name : string) (this : Driver) : bool :=
  match errorOverridingMap this with
  | None => true
  | Some entries =>
      forallb (fun kv => negb (name =? fst kv) || negb (has_key "stack" (for_in (snd kv))))
              entries
  end.

(** The override map has no entry under [name] at all. *)
Definition no_override_for (name : string) (this : Driver) : bool :=
  match errorOverridingMap this with
  | None => true
  | Some entries => forallb (fun kv => negb (name =? fst kv)) entries
  end.

(** The body branches of [handleSuccess]: binary data, stream, or a regular
    value that is answered as JSON. *)
Definition is_binary (r : returned) : bool := instanceof_Uint8Array r.

Definition is_stream (r : returned) : bool :=
  match pipe_is_function r with Normal b => b | Throw _ => false end.

Definition is_regular (r : returned) : bool :=
  negb (nullish_r r) && negb (is_binary r) && negb (is_stream r).

(** The express [handleSuccess] takes the short-circuit of its first
    statement. *)
Definition express_short_circuit (result : returned) (options : Method) : bool :=
  truthy_r result && same_object result (response options).

(** Number of [next] calls of a run. *)
Definition nexts {A} (options : Method) (run : M A) : nat :=
  count_next (next options) (trace_of run).

End Vocabulary.
Import Vocabulary.

(** ** Sample inputs *)
Module Samples.

(** [new Error("boom")]. *)
Definition boom : ErrorObject :=
  mkError None true false "Error" "Error" (VString "boom")
          (VString "Error: boom at Test.foo") VUndefined [].

(** An error that carries a nested [details] object. *)
Definition detailed : ErrorObject :=
  mkError None true false "Error" "Error" (VString "boom") VUndefined VUndefined
          [("details", VObject [("x", VNumber 1); ("y", VNumber 2)])].

Definition production : Driver := mkDriver false VUndefined true false "" None.

Definition development : Driver := mkDriver false VUndefined true true "" None.

(** Production mode, with an override for [Error] that brings a [stack]. *)
Definition production_overriding : Driver :=
  mkDriver false VUndefined true false ""
           (Some [("Error", VObject [("stack", VString "hidden")])]).

(** Production mode, with an override for [Error] that touches [details]. *)
Definition details_overriding : Driver :=
  mkDriver false VUndefined true false ""
           (Some [("Error", VObject [("details", VObject [("y", VNumber 3)])])]).

(** The [add] method of the sample [Test] controller, built without
    response handlers; it returns [new Buffer("safasfas")]. *)
Definition mathAdd : MethodMetadata :=
  build [] (newMethodMetadata (mkControllerRef "Test" "math") (RouteString "add")
                              "Test" "foo" "post" (mkOptions None)).

Definition safasfas : returned :=
  HostObject 9 (KBuffer (list_byte_of_string "safasfas")).

Definition handle : Method :=
  mkHandle (mkRequest "POST" VUndefined VUndefined VUndefined VUndefined VUndefined
                      VUndefined VUndefined)
           1 None 2.

(** A transformer that leaves values as they are. *)
Definition identityTransform (r : returned) (opts : value) : returned := r.

End Samples.


(** ** KoaDriver: registration and parameters *)
Module KoaRequests.

(** The koa context of a request, through the members the driver reads:
    its identity, the request and response it carries, and the data
    [getParamFromRequest] looks into ([req] is the node request). *)
Record KoaContext : Type := mkContext {
  ctx_ref : nat;
  ctx_request : Request;
  ctx_response : nat;
  ctx_params : value;
  ctx_session : value;
  ctx_state : value;
  ctx_query : value;
  ctx_headers : value;
  ctx_req : value
}.

(** [MethodMetadata.appendBaseRoute] applied to a [fullRoute] that may still
    be undefined: with a non-empty base the pattern branch reads
    [name.toString()]. *)
Definition appendBaseRoute_opt (baseRoute : string) (name : option route)
    : completion (option route) :=
  match name with
  | Some r => Normal (Some (appendBaseRoute baseRoute r))
  | None =>
      if negb (truthy (VString baseRoute)) || (baseRoute =? "") then Normal None
      else Throw (TypeError "Cannot read property 'toString' of undefined")
  end.

(** The argument list of the registration call on the koa router, and the
    router method it goes to. *)
Record Registration : Type := mkRegistration {
  reg_verb : string;
  reg_route : option route;
  reg_handler : KoaContext -> nat -> M value
}.

Section Callbacks.

Variable executeCallback : Method -> M value.

(** The [routeHandler] closure of [registerMethod]. *)
Definition routeHandler (context : KoaContext) (next : nat) : M value :=
  let options := mkHandle (ctx_request context) (ctx_response context)
                          (Some (ctx_ref context)) next in
  executeCallback options.

(** [KoaDriver.registerMethod]. *)
Definition registerMethod (this : Driver) (actionMetadata : MethodMetadata)
    : completion Registration :=
  route <~ appendBaseRoute_opt (routePrefix this) (fullRoute actionMetadata) ;;
  Normal (mkRegistration (toLowerCase (type actionMetadata)) route routeHandler).

End Callbacks.

Section Cookies.

(** The [parse] function of the cookie package. *)
Variable cookie_parse : value -> completion value.

(** [KoaDriver.getParamFromRequest]; [context] is [actionOptions.context]
    and [request] is [actionOptions.request]. *)
Definition getParamFromRequest (context : KoaContext) (request : Request)
    (param : ParamMetadata) : completion value :=
  let t := p_type param in
  let key := ExpressDriver.name_key param in
  if t =? "body" then Normal (r_body request)
  else if t =? "body-param" then get (r_body request) key
  else if t =? "param" then get (ctx_params context) key
  else if t =? "params" then Normal (ctx_params context)
  else if t =? "session" then
    if ExpressDriver.name_truthy param then get (ctx_session context) key
    else Normal (ctx_session context)
  else if t =? "state" then
    if ExpressDriver.name_truthy param then get (ctx_state context) key
    else Normal (ctx_state context)
  else if t =? "query" then get (ctx_query context) key
  else if t =? "queries" then Normal (ctx_query context)
  else if t =? "file" then get (ctx_req context) "file"
  else if t =? "files" then get (ctx_req context) "files"
  else if t =? "header" then
    match p_name param with
    | Some n => get (ctx_headers context) (toLowerCase n)
    | None => Throw (TypeError "Cannot read property 'toLowerCase' of undefined")
    end
  else if t =? "headers" then Normal (r_headers request)
  else if t =? "cookie" then
    header <~ get (ctx_headers context) "cookie" ;;
    if negb (truthy header) then Normal VUndefined
    else cookies <~ cookie_parse header ;; get cookies key
  else if t =? "cookies" then
    header <~ get (r_headers request) "cookie" ;;
    if negb (truthy header) then Normal (VObject [])
    else cookie_parse header
  else Normal VUndefined.

End Cookies.

End KoaRequests.

(** ** handleError *)
Module ErrorHandling.

(** The two host calls of [handleError] that [handleSuccess] never makes. *)
Inductive error_call : Type :=
| NextWith (k : nat) (error : thrown)      (* options.next(error) *)
| AssignBody (res : nat) (body : value).   (* options.response.body = ... *)

Definition call : Type := (event + error_call)%type.

(** Effectful code over both kinds of host call. *)
Definition E (A : Type) : Type := (list call * completion A)%type.

Definition host {A} (m : M A) : E A := (map inl (trace_of m), outcome_of m).

Definition call_error (c : error_call) : E unit := ([inr c], Normal tt).

Definition ebind {A B} (m : E A) (k : A -> E B) : E B :=
  match m with
  | (t, Normal a) => ((t ++ fst (k a))%list, snd (k a))
  | (t, Throw e) => (t, Throw e)
  end.

(** [error.httpCode]: the code sits among the error's own enumerable
    properties (where [processJsonError] filters it out); a string has none. *)
Definition httpCode (error : thrown) : value :=
  match error with
  | ThrownString _ => VUndefined
  | ThrownObject e => member (VObject (e_own e)) "httpCode"
  end.

(** How the promise returned by the koa [handleError] settles. *)
Inductive settlement : Type :=
| Resolved
| Rejected (error : thrown)      (* reject(error) *)
| Failed (e : exn).              (* an exception inside the executor *)

Section Envelope.

(** [this.processJsonError], inherited from the base class. *)
Variable processJsonError : Driver -> thrown -> completion value.

(** [if (method) Object.keys(method.headers).forEach(...)]. *)
Definition apply_headers_opt (method : option MethodMetadata) (res : nat) : E unit :=
  match method with
  | Some m => host (apply_headers m res)
  | None => ([], Normal tt)
  end.

(** [ExpressDriver.handleError]. *)
Definition express_handleError (this : Driver) (error : thrown)
    (method : option MethodMetadata) (options : Method) : E unit :=
  ebind
    (if isDefaultErrorHandlingEnabled this
     then
       let response := response options in
       ebind (if truthy (httpCode error)
              then host (emit (SetStatus response (httpCode error)))
              else host (emit (SetStatus response (VNumber 500))))
         (fun _ =>
            ebind (apply_headers_opt method response)
              (fun _ =>
                 ebind (host (lift (processJsonError this error)))
                   (fun body => host (emit (SendJson response (Data body))))))
     else ([], Normal tt))
    (fun _ => call_error (NextWith (next options) error)).

(** [KoaDriver.handleError]: the host calls of the promise executor and the
    way the promise settles. *)
Definition koa_handleError (this : Driver) (error : thrown)
    (action : option MethodMetadata) (options : Method) : list call * settlement :=
  if isDefaultErrorHandlingEnabled this
  then
    let run :=
      ebind (apply_headers_opt action (response options))
        (fun _ =>
           ebind (host (lift (processJsonError this error)))
             (fun body => call_error (AssignBody (response options) body))) in
    (fst run, match snd run with Normal _ => Resolved | Throw e => Failed e end)
  else ([], Rejected error).

End Envelope.

(** Number of [next(error)] calls in a run. *)
Definition is_next_with (k : nat) (c : call) : bool :=
  match c with inr (NextWith k' _) => (k' =? k)%nat | _ => false end.

Definition count_next_with (k : nat) (t : list call) : nat :=
  List.length (filter (is_next_with k) t).

(** The status codes a run has set, in order. *)
Definition statuses (t : list call) : list value :=
  flat_map (fun c => match c with inl (SetStatus _ code) => [code] | _ => [] end) t.

End ErrorHandling.

(** ** Vocabulary of the further properties *)
Module Observations.

(** The host calls of a [handleSuccess] run, by kind. *)
Definition status_calls (t : list event) : list value :=
  flat_map (fun e => match e with SetStatus _ code => [code] | _ => [] end) t.

Definition header_calls (t : list event) : list (string * value) :=
  flat_map (fun e => match e with SetHeader _ name v => [(name, v)] | _ => [] end) t.

Definition body_calls (t : list event) : list event :=
  filter (fun e => match e with
                   | EndBinary _ _ | PipeTo _ _ | SendJson _ _ => true
                   | _ => false
                   end) t.

(** The value of the last handler of kind [header] declared for [name]. *)
Fixpoint last_header (name : string) (hs : list ResponseHandlerMetadata) : option value :=
  match hs with
  | [] => None
  | h :: rest =>
      match last_header name rest with
      | Some v => Some v
      | None =>
          if (rh_type h =? "header") && (ToString (rh_value h) =? name)
          then Some (rh_secondaryValue h) else None
      end
  end.

(** A thrown value that is no [Error] instance or brings its own [toJSON]. *)
Definition bypasses_envelope (error : thrown) : bool :=
  match error with
  | ThrownString _ => true
  | ThrownObject e =>
      match e_toJSON e with Some _ => true | None => negb (e_isError e) end
  end.

(** [v] can stand on the right of [in]. *)
Definition accepts_in (v : value) : bool :=
  match v with VObject _ | VFunction _ => true | _ => false end.

End Observations.


(* ===================================================================== *)
(** * Part II: properties                                                 *)
(* ===================================================================== *)

(** ** Strings *)

Lemma append_empty_r (s : string) : s ++ "" = s.
Proof.
  induction s as [|c s IH]; simpl; [reflexivity | now rewrite IH].
Qed.

Lemma eqb_empty_false (s : string) : s <> "" -> (s =? "") = false.
Proof.
  intros H. destruct (String.eqb_spec s ""); [contradiction | reflexivity].
Qed.

Lemma truthy_nonempty (s : string) : s <> "" -> truthy (VString s) = true.
Proof.
  intros H. simpl. now rewrite eqb_empty_false.
Qed.

(** ** Route composition *)






(** A literal fragment, by contrast, is appended to the normalised prefix:
    [appendBaseRoute] puts a slash in front of a base that has none. *)
Lemma appendBaseRoute_literal (baseRoute fragment : string) :
  appendBaseRoute baseRoute (RouteString fragment)
  = RouteString (basePrefix baseRoute ++ fragment).
Proof. reflexivity. Qed.

(** A pattern composed with the empty base is returned as it is. *)
Lemma appendBaseRoute_pattern_empty_base (r : RegExp) :
  appendBaseRoute "" (RoutePattern r) = RoutePattern r.
Proof. reflexivity. Qed.

(** ** MethodMetadata.build *)

(** C5.  With a non-empty controller base name and a literal fragment, the
    built [fullRoute] is the base name followed by the fragment, nothing in
    between and nothing rewritten. *)
Theorem build_fullRoute_literal (responseHandlers : list ResponseHandlerMetadata)
    (m : MethodMetadata) (fragment : string) :
  cr_name (controllerMetadata m) <> "" ->
  name m = RouteString fragment ->
  fullRoute (build responseHandlers m)
  = Some (RouteString (cr_name (controllerMetadata m) ++ fragment)).
Proof.
  intros Hbase Hname. unfold build.
  repeat match goal with
         | |- context [find_handler ?t ?hs] => destruct (find_handler t hs)
         end; simpl; unfold buildFullRoute; simpl; rewrite Hname;
    rewrite (eqb_empty_false _ Hbase); simpl;
    (destruct (String.eqb_spec fragment "") as [->|_]; simpl;
     [now rewrite append_empty_r | reflexivity]).
Qed.

Lemma build_fullRoute_literal_witness :
  fullRoute (build [] (newMethodMetadata (mkControllerRef "Test" "math")
                                         (RouteString "/add") "Test" "foo" "post"
                                         (mkOptions None)))
  = Some (RouteString "math/add").
Proof.
  apply (build_fullRoute_literal []
           (newMethodMetadata (mkControllerRef "Test" "math") (RouteString "/add")
                              "Test" "foo" "post" (mkOptions None))
           "/add").
  - discriminate.
  - reflexivity.
Defined.

(** Building twice changes nothing the first build did not already set. *)
Lemma build_idempotent (responseHandlers : list ResponseHandlerMetadata)
    (m : MethodMetadata) :
  build responseHandlers (build responseHandlers m) = build responseHandlers m.
Proof.
  unfold build.
  repeat match goal with
         | |- context [find_handler ?t ?hs] => destruct (find_handler t hs)
         end; reflexivity.
Qed.

(** C6.  A second [build] with the same handlers leaves [headers],
    [fullRoute], [undefinedResultCode], [nullResultCode] and
    [successHttpCode] exactly as the first one computed them. *)
Theorem build_twice_same_fields (responseHandlers : list ResponseHandlerMetadata)
    (m : MethodMetadata) :
  let once := build responseHandlers m in
  let twice := build responseHandlers once in
  headers twice = headers once
  /\ fullRoute twice = fullRoute once
  /\ undefinedResultCode twice = undefinedResultCode once
  /\ nullResultCode twice = nullResultCode once
  /\ successHttpCode twice = successHttpCode once.
Proof.
  cbv zeta. rewrite build_idempotent. repeat split.
Qed.

(** ** ControllerMetadata.build *)

(** C10.  [ControllerMetadata.build] returns the receiver with [target],
    [name] and [methods] as they were, whatever the handlers are. *)
Theorem controller_build_frame (responseHandlers : list ResponseHandlerMetadata)
    (c : ControllerMetadata) :
  c_target (controller_build responseHandlers c) = c_target c
  /\ c_name (controller_build responseHandlers c) = c_name c
  /\ c_methods (controller_build responseHandlers c) = c_methods c.
Proof.
  unfold controller_build. repeat split.
Qed.

(** ** ExpressDriver: parameters and registration *)

(** C8.  On the express driver a parameter of the application-state kind
    is refused with an error whose message names the [@State] feature and
    the express driver, for every request handle and parameter name. *)
Theorem express_state_param_unsupported (action : Method) (pname : option string)
    (required : bool) :
  exists msg : string,
    ExpressDriver.getParamFromRequest action (mkParam "state" pname required)
    = Throw (Error msg)
    /\ msg = "@State decorators are not supported by express driver."
    /\ includes msg "@State" = true
    /\ includes msg "express driver" = true.
Proof.
  eexists. split; [reflexivity | split; [reflexivity | split; reflexivity]].
Qed.


(** The mounted path ignores the method: two methods of one driver are
    mounted at the same path. *)
Lemma express_registerMethod_same_route (cb1 cb2 : Method -> M value)
    (this : Driver) (m1 m2 : MethodMetadata) :
  ExpressDriver.reg_route (ExpressDriver.registerMethod cb1 this m1)
  = ExpressDriver.reg_route (ExpressDriver.registerMethod cb2 this m2).
Proof. reflexivity. Qed.

(** ** transformResult on nullish results *)

(** In the revision with [errorOverridingMap], a nullish result comes back
    as it is, without any host call, whatever the driver's flags are. *)
Lemma transformResult_overrides_nullish (classToPlain : returned -> value -> returned)
    (this : Driver) (action : MethodMetadata) (options : Method) :
  BaseDriverOverrides.transformResult classToPlain this (Data VUndefined) action options
  = ([], Normal (Data VUndefined))
  /\ BaseDriverOverrides.transformResult classToPlain this (Data VNull) action options
     = ([], Normal (Data VNull)).
Proof.
  unfold BaseDriverOverrides.transformResult, shouldTransform.
  destruct (useClassTransformer this); split; reflexivity.
Qed.

(** C4 (the failing inputs).  [transformResult] of src/driver/BaseDriver.ts
    does not return a nullish result: after [shouldTransform] came out false
    it falls through to [result.pipe], and that member read raises a
    [TypeError]. *)
Theorem transformResult_nullish_throws (classToPlain : returned -> value -> returned)
    (this : Driver) (method : MethodMetadata) (action : Method) :
  BaseDriver.transformResult classToPlain this (Data VUndefined) method action
  = ([], Throw (TypeError "Cannot read property 'pipe' of undefined"))
  /\ BaseDriver.transformResult classToPlain this (Data VNull) method action
     = ([], Throw (TypeError "Cannot read property 'pipe' of null")).
Proof.
  unfold BaseDriver.transformResult, shouldTransform.
  destruct (useClassTransformer this); split; reflexivity.
Qed.

(** ** merge *)

Lemma has_key_set_prop (k k' : string) (v : value) (ps : props) :
  has_key k (set_prop k' v ps) = (k' =? k) || has_key k ps.
Proof.
  induction ps as [|[k0 v0] ps IH]; simpl.
  - reflexivity.
  - destruct (String.eqb_spec k0 k') as [->|Hne]; simpl.
    + now destruct (k' =? k).
    + rewrite IH. destruct (k0 =? k), (k' =? k); reflexivity.
Qed.

Lemma has_key_second_loop (k : string) (obj2 : value) (result : props) :
  has_key k (second_loop obj2 result) = has_key k result || has_key k (for_in obj2).
Proof.
  unfold second_loop. generalize (for_in obj2) as ps. intros ps.
  revert result. induction ps as [|[k0 v0] ps IH]; intros result; simpl.
  - now rewrite orb_false_r.
  - rewrite IH, has_key_set_prop. now rewrite orb_assoc, (orb_comm (k0 =? k)).
Qed.

Lemma has_key_copy_props (k : string) (src target : props) :
  has_key k (copy_props src target) = has_key k target || has_key k src.
Proof.
  unfold copy_props. revert target.
  induction src as [|[k0 v0] src IH]; intros target; simpl.
  - now rewrite orb_false_r.
  - rewrite IH, has_key_set_prop. now rewrite orb_assoc, (orb_comm (k0 =? k)).
Qed.

Lemma has_key_filter_out (f : string -> bool) (k : string) (ps : props) :
  f k = false -> has_key k (filter (fun kv => f (fst kv)) ps) = false.
Proof.
  intros Hf. induction ps as [|[k0 v0] ps IH]; simpl; [reflexivity |].
  destruct (f k0) eqn:Hk0; simpl; [| exact IH].
  rewrite IH. destruct (String.eqb_spec k0 k) as [->|_]; [congruence | reflexivity].
Qed.

(** Whatever the recursive calls return, the first loop ends with the keys
    it started from plus those it walked over. *)
Lemma first_loop_keys (rec : value -> value -> completion value) (obj2 : value)
    (ps result out : props) (k : string) :
  first_loop rec obj2 ps result = Normal out ->
  has_key k out = has_key k result || has_key k ps.
Proof.
  revert result. induction ps as [|[i x] ps IH]; intros result; simpl.
  - intros [= <-]. now rewrite orb_false_r.
  - destruct (js_in i obj2) as [b|]; simpl; [| discriminate].
    destruct (b && (typeof x =? "object")).
    + destruct (rec x (member obj2 i)) as [r|]; simpl; [| discriminate].
      intros H. rewrite (IH _ H), has_key_set_prop.
      now rewrite orb_assoc, (orb_comm (i =? k)).
    + intros H. rewrite (IH _ H), has_key_set_prop.
      now rewrite orb_assoc, (orb_comm (i =? k)).
Qed.

(** A merge into an object that completes yields an object whose keys are
    those of either side. *)
Lemma merge_object_keys (ps1 : props) (obj2 v : value) :
  merge (VObject ps1) obj2 = Normal v ->
  exists out, v = VObject out
              /\ forall k, has_key k out = has_key k ps1 || has_key k (for_in obj2).
Proof.
  simpl. destruct (first_loop merge obj2 ps1 []) as [r|] eqn:Hloop; simpl; [| discriminate].
  intros [= <-]. eexists. split; [reflexivity |].
  intros k. rewrite has_key_second_loop, (first_loop_keys _ _ _ _ _ k Hloop). reflexivity.
Qed.

Lemma lookup_set_prop (k k' : string) (v : value) (ps : props) :
  lookup k (set_prop k' v ps) = if k' =? k then Some v else lookup k ps.
Proof.
  induction ps as [|[k0 v0] ps IH]; simpl.
  - reflexivity.
  - destruct (String.eqb_spec k0 k') as [->|Hne]; simpl.
    + now destruct (k' =? k).
    + rewrite IH. destruct (String.eqb_spec k0 k) as [->|_]; [| reflexivity].
      destruct (String.eqb_spec k' k) as [->|_]; [contradiction | reflexivity].
Qed.

Lemma has_key_false_lookup (k : string) (ps : props) :
  has_key k ps = false -> lookup k ps = None.
Proof.
  induction ps as [|[k0 v0] ps IH]; simpl; [reflexivity |].
  destruct (k0 =? k); simpl; [discriminate | exact IH].
Qed.

Lemma In_keys_has_key (k : string) (ps : props) :
  ~ In k (keys ps) -> has_key k ps = false.
Proof.
  induction ps as [|[k0 v0] ps IH]; simpl; [reflexivity |].
  intros Hnot. destruct (String.eqb_spec k0 k) as [->|Hne]; simpl.
  - exfalso. apply Hnot. now left.
  - apply IH. intros Hin. apply Hnot. now right.
Qed.

(** Assigning a list of properties whose keys are distinct leaves each of
    them readable. *)
Lemma lookup_assign_all (k : string) (src : props) :
  NoDup (keys src) ->
  forall target,
    lookup k (fold_left (fun result kv => set_prop (fst kv) (snd kv) result) src target)
    = match lookup k src with Some v => Some v | None => lookup k target end.
Proof.
  induction src as [|[k0 v0] src IH]; simpl; intros Hnodup target; [reflexivity |].
  inversion Hnodup as [|? ? Hnotin Hrest]; subst.
  rewrite (IH Hrest). rewrite lookup_set_prop.
  destruct (String.eqb_spec k0 k) as [->|_]; [| reflexivity].
  now rewrite (has_key_false_lookup _ _ (In_keys_has_key _ _ Hnotin)).
Qed.

(** The defect of [merge] in general: on every key of [obj2] the merged
    object holds the value of [obj2] as it is, whether or not the first loop
    had merged something there. *)
Lemma merge_right_side_verbatim (obj1 obj2 merged : value) (k : string) (v : value) :
  NoDup (keys (for_in obj2)) ->
  merge obj1 obj2 = Normal merged ->
  lookup k (for_in obj2) = Some v ->
  lookup k (for_in merged) = Some v.
Proof.
  intros Hnodup Hrun Hk.
  assert (Hshape : exists r, merged = VObject (second_loop obj2 r)).
  { destruct obj1; simpl in Hrun;
      match type of Hrun with
      | cbind ?c _ = _ => destruct c as [r|]; simpl in Hrun; [| discriminate]
      | _ => idtac
      end; injection Hrun as <-; eexists; reflexivity. }
  destruct Hshape as [r ->]. cbn [for_in]. unfold second_loop.
  rewrite (lookup_assign_all k _ Hnodup). now rewrite Hk.
Qed.





(** C3 (the failing input).  Merging [{a: {x: 1, y: 2}, b: 5}] with the
    override [{a: {y: 3}}] keeps [b] but answers [a] with the override's
    object alone: the recursive merge of the first loop is overwritten by
    the second loop and [x] is gone, where the stated policy keeps it. *)
Theorem merge_overwrites_nested :
  let obj1 := VObject [("a", VObject [("x", VNumber 1); ("y", VNumber 2)]);
                       ("b", VNumber 5)] in
  let obj2 := VObject [("a", VObject [("y", VNumber 3)])] in
  merge obj1 obj2
  = Normal (VObject [("a", VObject [("y", VNumber 3)]); ("b", VNumber 5)])
  /\ spec_merge obj1 obj2
     = VObject [("a", VObject [("x", VNumber 1); ("y", VNumber 3)]); ("b", VNumber 5)]
  /\ merge obj1 obj2 <> Normal (spec_merge obj1 obj2).
Proof.
  cbv zeta. split; [reflexivity | split; [reflexivity |]].
  vm_compute. discriminate.
Qed.

(** Where the left side holds an object and the right side a scalar, the
    recursion reaches [in] on the scalar and [merge] throws. *)
Lemma merge_scalar_override_throws :
  merge (VObject [("a", VObject [("x", VNumber 1)])]) (VObject [("a", VNumber 5)])
  = Throw (TypeError "Cannot use 'in' operator to search for 'x'").
Proof. reflexivity. Qed.

(** The same through [processJsonError]: an override entry for [Error]
    that mentions [details] replaces the error's [details] wholesale. *)
Lemma processJsonError_override_replaces_nested :
  BaseDriverOverrides.processJsonError Samples.details_overriding
                                       (ThrownObject Samples.detailed)
  = Normal (VObject [("name", VString "Error"); ("message", VString "boom");
                     ("details", VObject [("y", VNumber 3)])]).
Proof. reflexivity. Qed.

(** ** processJsonError and the stack trace *)

(** Overrides without a [stack] key leave the presence of [stack] in the
    envelope as it was. *)
Lemma apply_overrides_stack (name : string) (entries : props) :
  forallb (fun kv => negb (name =? fst kv) || negb (has_key "stack" (for_in (snd kv))))
          entries = true ->
  forall (ps : props) (v : value),
    BaseDriverOverrides.apply_overrides name entries (VObject ps) = Normal v ->
    exists out, v = VObject out /\ has_key "stack" out = has_key "stack" ps.
Proof.
  induction entries as [|[key entry] entries IH];
    cbn [BaseDriverOverrides.apply_overrides forallb fst snd]; intros Hall ps v.
  - intros H. injection H as <-. now exists ps.
  - apply andb_true_iff in Hall as [Hentry Hrest].
    destruct (name =? key); cbn [negb orb] in Hentry.
    + destruct (merge (VObject ps) entry) as [merged|] eqn:Hmerge;
        cbn [cbind]; [| discriminate].
      destruct (merge_object_keys _ _ _ Hmerge) as (out1 & -> & Hkeys).
      intros Hrun. destruct (IH Hrest _ _ Hrun) as (out & -> & Hout).
      exists out. split; [reflexivity |].
      rewrite Hout, Hkeys. apply negb_true_iff in Hentry. rewrite Hentry.
      now rewrite orb_false_r.
    + apply (IH Hrest).
Qed.

(** With no entry under the name, the override step returns its input. *)
Lemma apply_overrides_none (name : string) (entries : props) (v : value) :
  forallb (fun kv => negb (name =? fst kv)) entries = true ->
  BaseDriverOverrides.apply_overrides name entries v = Normal v.
Proof.
  induction entries as [|[key entry] entries IH]; simpl; intros Hall.
  - reflexivity.
  - apply andb_true_iff in Hall as [Hentry Hrest].
    apply negb_true_iff in Hentry. rewrite Hentry. now apply IH.
Qed.

Lemma keys_nonempty_of_has_key (k : string) (ps : props) :
  has_key k ps = true -> (0 <? List.length (keys ps))%nat = true.
Proof.
  destruct ps; simpl; [discriminate | reflexivity].
Qed.

(** The envelope before overrides: it has a [name], and it has a [stack]
    exactly when the error's stack is truthy and development mode is on. *)
Lemma has_key_reserved_copy (is_rpc : bool) (k : string) (own target : props) :
  reserved is_rpc k = false ->
  has_key k (copy_props (filter (fun kv => reserved is_rpc (fst kv)) own) target)
  = has_key k target.
Proof.
  intros Hres. rewrite has_key_copy_props.
  rewrite (has_key_filter_out (reserved is_rpc) k own Hres). apply orb_false_r.
Qed.

(** The override step only ever adds keys. *)
Lemma apply_overrides_grows (name : string) (entries : props) :
  forall (ps : props) (v : value),
    BaseDriverOverrides.apply_overrides name entries (VObject ps) = Normal v ->
    exists out, v = VObject out
                /\ forall k, has_key k ps = true -> has_key k out = true.
Proof.
  induction entries as [|[key entry] entries IH];
    cbn [BaseDriverOverrides.apply_overrides]; intros ps v.
  - intros H. injection H as <-. exists ps. split; [reflexivity | auto].
  - destruct (name =? key).
    + destruct (merge (VObject ps) entry) as [merged|] eqn:Hmerge;
        cbn [cbind]; [| discriminate].
      destruct (merge_object_keys _ _ _ Hmerge) as (out1 & -> & Hkeys).
      intros Hrun. destruct (IH _ _ Hrun) as (out & -> & Hout).
      exists out. split; [reflexivity |].
      intros k Hk. apply Hout. rewrite Hkeys, Hk. reflexivity.
    + apply IH.
Qed.

(** The envelope the revision with overrides builds before the override
    step. *)
Lemma processJsonError_overrides_unfold (this : Driver) (e : ErrorObject) :
  e_toJSON e = None -> e_isError e = true ->
  exists before : props,
    has_key "name" before = true
    /\ has_key "stack" before = truthy (e_stack e) && developmentMode this
    /\ BaseDriverOverrides.processJsonError this (ThrownObject e)
       = (merged <~ match errorOverridingMap this with
                    | Some entries =>
                        BaseDriverOverrides.apply_overrides
                          (BaseDriverOverrides.classified_name e) entries (VObject before)
                    | None => Normal (VObject before)
                    end ;;
          Normal (if (0 <? List.length (keys (for_in merged)))%nat
                  then merged else VUndefined)).
Proof.
  intros HtoJSON Herr.
  unfold BaseDriverOverrides.processJsonError. rewrite HtoJSON, Herr.
  eexists. split; [| split; [| reflexivity]].
  - rewrite has_key_copy_props.
    destruct (truthy (e_stack e) && developmentMode this), (truthy (e_message e));
      reflexivity.
  - rewrite has_key_reserved_copy by reflexivity.
    destruct (truthy (e_stack e) && developmentMode this), (truthy (e_message e));
      reflexivity.
Qed.

(** The envelope of the revision without overrides, for an error that is no
    [RpcError]. *)
Lemma processJsonError_data_stack
    (InternalError_new : string -> ErrorObject) (ServerError_rpcCode : value)
    (this : Driver) (e : ErrorObject) :
  e_isRpcError e = false ->
  exists out data,
    BaseDriver.processJsonError InternalError_new ServerError_rpcCode this
                                (ThrownObject e) = Normal (VObject out)
    /\ lookup "data" out = Some (VObject data)
    /\ has_key "stack" data = truthy (e_stack e) && developmentMode this.
Proof.
  intros Hrpc. unfold BaseDriver.processJsonError. rewrite Hrpc. unfold envelope.
  destruct (truthy (e_message e)); simpl; do 2 eexists;
    (split; [reflexivity | split; [reflexivity |]]);
    rewrite has_key_copy_props,
            (has_key_filter_out reserved_rpc "stack" (e_own e) eq_refl), orb_false_r;
    destruct (truthy (e_stack e) && developmentMode this); reflexivity.
Qed.

(** C7 (as amended).  For a plain [Error] with a stack trace, provided no
    override entry under the error's classified name has a [stack] key of its
    own: an envelope produced by the revision with overrides has a [stack]
    key exactly when development mode is on, and one is produced whenever the
    map has no entry under that name; the revision without overrides always
    produces an envelope, whose [data] has a [stack] key exactly when
    development mode is on. *)
Theorem processJsonError_stack_iff_development
    (InternalError_new : string -> ErrorObject) (ServerError_rpcCode : value)
    (this : Driver) (e : ErrorObject) :
  plain_error e = true ->
  truthy (e_stack e) = true ->
  no_stack_override (BaseDriverOverrides.classified_name e) this = true ->
  (forall v, BaseDriverOverrides.processJsonError this (ThrownObject e) = Normal v ->
             exists out, v = VObject out /\ has_stack v = developmentMode this)
  /\ (no_override_for (BaseDriverOverrides.classified_name e) this = true ->
      exists out, BaseDriverOverrides.processJsonError this (ThrownObject e)
                  = Normal (VObject out))
  /\ (exists out data,
        BaseDriver.processJsonError InternalError_new ServerError_rpcCode this
                                    (ThrownObject e) = Normal (VObject out)
        /\ lookup "data" out = Some (VObject data)
        /\ has_key "stack" data = developmentMode this).
Proof.
  intros Hplain Hstack Hover.
  unfold plain_error in Hplain.
  apply andb_true_iff in Hplain as [Hplain Hrpc].
  apply andb_true_iff in Hplain as [Hjson Herr].
  apply negb_true_iff in Hrpc.
  destruct (e_toJSON e) eqn:HtoJSON; [discriminate | clear Hjson].
  destruct (processJsonError_overrides_unfold this e HtoJSON Herr)
    as (before & Hname & Hbefore & Hrun).
  rewrite Hstack in Hbefore. simpl in Hbefore.
  split; [| split].
  - intros v. rewrite Hrun. unfold no_stack_override in Hover.
    destruct (errorOverridingMap this) as [entries|]; simpl.
    + destruct (BaseDriverOverrides.apply_overrides _ entries (VObject before))
        as [merged|] eqn:Hmerged; simpl; [| discriminate].
      destruct (apply_overrides_stack _ entries Hover _ _ Hmerged) as (out & Hv & Hout).
      destruct (apply_overrides_grows _ entries _ _ Hmerged) as (out' & Hv' & Hgrow).
      subst merged. injection Hv' as <-.
      simpl. rewrite (keys_nonempty_of_has_key _ _ (Hgrow _ Hname)).
      intros H. injection H as <-. exists out. split; [reflexivity |].
      unfold has_stack. simpl. now rewrite Hout.
    + rewrite (keys_nonempty_of_has_key _ _ Hname).
      intros H. injection H as <-. exists before. split; [reflexivity | exact Hbefore].
  - intros Hnone. rewrite Hrun. unfold no_override_for in Hnone.
    destruct (errorOverridingMap this) as [entries|]; simpl.
    + rewrite (apply_overrides_none _ _ _ Hnone). simpl.
      rewrite (keys_nonempty_of_has_key _ _ Hname). now exists before.
    + rewrite (keys_nonempty_of_has_key _ _ Hname). now exists before.
  - destruct (processJsonError_data_stack InternalError_new ServerError_rpcCode this e Hrpc)
      as (out & data & Hrun' & Hdata & Hkey).
    exists out, data. rewrite Hstack in Hkey. auto.
Qed.

Lemma processJsonError_stack_iff_development_witness :
  exists out,
    BaseDriverOverrides.processJsonError Samples.development (ThrownObject Samples.boom)
    = Normal (VObject out).
Proof.
  destruct (processJsonError_stack_iff_development
              (fun s => Samples.boom) VUndefined Samples.development Samples.boom
              eq_refl eq_refl eq_refl) as [_ [Hruns _]].
  apply Hruns. reflexivity.
Defined.

(** C7, the claim as worded, fails: in production mode an override entry
    for [Error] that carries a [stack] puts a [stack] key into the envelope
    of a plain [Error]. *)
Lemma processJsonError_override_adds_stack :
  developmentMode Samples.production_overriding = false
  /\ plain_error Samples.boom = true
  /\ exists v,
       BaseDriverOverrides.processJsonError Samples.production_overriding
                                            (ThrownObject Samples.boom) = Normal v
       /\ has_stack v = true.
Proof.
  split; [reflexivity | split; [reflexivity |]].
  eexists. split; reflexivity.
Qed.

(** ** handleSuccess and the next handler *)

Lemma count_next_app (k : nat) (t1 t2 : list event) :
  count_next k (t1 ++ t2)%list = count_next k t1 + count_next k t2.
Proof.
  unfold count_next. now rewrite filter_app, length_app.
Qed.

Lemma nexts_bind {A B} (options : Method) (m : M A) (f : A -> M B) :
  nexts options (bind m f)
  = nexts options m
    + match outcome_of m with Normal a => nexts options (f a) | Throw _ => 0 end.
Proof.
  unfold nexts. destruct m as [t [a|e]]; simpl.
  - apply count_next_app.
  - now rewrite Nat.add_0_r.
Qed.

Lemma outcome_bind {A B} (m : M A) (f : A -> M B) :
  outcome_of (bind m f)
  = match outcome_of m with Normal a => outcome_of (f a) | Throw e => Throw e end.
Proof.
  destruct m as [t [a|e]]; reflexivity.
Qed.

Lemma nexts_lift {A} (options : Method) (c : completion A) : nexts options (lift c) = 0.
Proof. reflexivity. Qed.

Lemma nexts_forEach_headers (options : Method) (hs : value) (res : nat) (names : list string) :
  nexts options (forEach (fun name => emit (SetHeader res name (member hs name))) names) = 0.
Proof.
  induction names as [|n names IH]; [reflexivity |].
  cbn [forEach]. rewrite nexts_bind. cbn. exact IH.
Qed.

(** Applying the headers never advances control. *)
Lemma nexts_apply_headers (options : Method) (method : MethodMetadata) (res : nat) :
  nexts options (apply_headers method res) = 0.
Proof.
  unfold apply_headers. rewrite nexts_bind, nexts_lift.
  destruct (outcome_of (lift (Object_keys (headers method)))); [| reflexivity].
  apply nexts_forEach_headers.
Qed.

Lemma nexts_emit_next (options : Method) : nexts options (emit (CallNext (next options))) = 1.
Proof.
  unfold nexts, count_next. cbn. now rewrite Nat.eqb_refl.
Qed.

Ltac split_ifs :=
  repeat match goal with
         | |- context [if ?b then _ else _] => destruct b
         end.

(** Whatever [transformResult] a driver inherits, as long as it leaves the
    continuation alone, neither driver advances control twice. *)
Section AnyTransform.

Variable transformResult : Driver -> returned -> MethodMetadata -> Method -> M returned.

Hypothesis transform_no_next :
  forall this result method options,
    nexts options (transformResult this result method options) = 0.

Lemma express_handleSuccess_bounded (this : Driver) (result : returned)
    (method : MethodMetadata) (options : Method) :
  nexts options (ExpressDriver.handleSuccess transformResult this result method options)
  <= 1.
Proof.
  unfold ExpressDriver.handleSuccess.
  destruct (truthy_r result && same_object result (response options)).
  - now rewrite nexts_emit_next.
  - rewrite nexts_bind, transform_no_next.
    destruct (outcome_of (transformResult this result method options)) as [r'|]; [| lia].
    rewrite nexts_bind. cbn [Nat.add].
    match goal with
    | |- nexts _ ?status + _ <= 1 =>
        assert (Hstatus : nexts options status = 0)
          by (split_ifs; reflexivity);
        rewrite Hstatus; destruct (outcome_of status); [| lia]
    end.
    rewrite nexts_bind, nexts_apply_headers.
    destruct (outcome_of (apply_headers method (response options))); [| lia].
    cbn [Nat.add].
    destruct (is_undefined r'); [split_ifs; rewrite ?nexts_emit_next; cbn; lia |].
    destruct (is_null r'); [rewrite nexts_emit_next; lia |].
    destruct (instanceof_Buffer r'); [cbn; lia |].
    destruct (instanceof_Uint8Array r'); [cbn; lia |].
    rewrite nexts_bind, nexts_lift.
    destruct (outcome_of (lift (pipe_is_function r'))) as [p|]; [| lia].
    destruct p; [cbn; lia |].
    rewrite nexts_bind. cbn [outcome_of snd emit]. rewrite nexts_emit_next. cbn. lia.
Qed.

Lemma koa_handleSuccess_bounded (this : Driver) (result : returned)
    (action : MethodMetadata) (options : Method) :
  nexts options (KoaDriver.handleSuccess transformResult this result action options)
  <= 1.
Proof.
  unfold KoaDriver.handleSuccess.
  destruct (truthy_r result
            && (same_object result (response options)
                || same_object_opt result (context options))).
  - now rewrite nexts_emit_next.
  - rewrite nexts_bind, transform_no_next.
    destruct (outcome_of (transformResult this result action options)) as [r'|]; [| lia].
    rewrite nexts_bind. cbn [Nat.add].
    match goal with
    | |- nexts _ ?status + _ <= 1 =>
        assert (Hstatus : nexts options status = 0)
          by (split_ifs; reflexivity);
        rewrite Hstatus; destruct (outcome_of status); [| lia]
    end.
    rewrite nexts_bind, nexts_apply_headers.
    destruct (outcome_of (apply_headers action (response options))); [| lia].
    rewrite nexts_emit_next. lia.
Qed.

End AnyTransform.

Section HandleSuccess.

Variable classToPlain : returned -> value -> returned.

(** The revision of [transformResult] the drivers are written against makes
    no host call and does not throw. *)
Lemma transformResult_overrides_pure (this : Driver) (result : returned)
    (action : MethodMetadata) (options : Method) :
  exists r', BaseDriverOverrides.transformResult classToPlain this result action options
             = ([], Normal r').
Proof.
  unfold BaseDriverOverrides.transformResult, shouldTransform.
  destruct (useClassTransformer this); cbn [andb];
    [| eexists; reflexivity].
  destruct result as [v|ref kind]; [destruct v as [| | | | | |ps] | destruct kind]; cbn;
    try (eexists; reflexivity).
  destruct (instanceof_Function (member (VObject ps) "pipe")); cbn;
    eexists; reflexivity.
Qed.

Lemma transformResult_overrides_no_next (this : Driver) (result : returned)
    (action : MethodMetadata) (options : Method) :
  nexts options (BaseDriverOverrides.transformResult classToPlain this result action options)
  = 0.
Proof.
  now destruct (transformResult_overrides_pure this result action options) as [r' ->].
Qed.

(** [transformResult] of src/driver/BaseDriver.ts may pipe a stream or
    throw, but it does not call [next] either. *)
Lemma transformResult_no_next (this : Driver) (result : returned)
    (method : MethodMetadata) (action : Method) :
  nexts action (BaseDriver.transformResult classToPlain this result method action) = 0.
Proof.
  unfold BaseDriver.transformResult. rewrite nexts_bind, nexts_lift.
  destruct (outcome_of (lift (shouldTransform this result))) as [should|]; [| reflexivity].
  destruct should; [reflexivity |].
  destruct (instanceof_Buffer result || instanceof_Uint8Array result); [reflexivity |].
  rewrite nexts_bind, nexts_lift.
  destruct (outcome_of (lift (pipe_is_function result))) as [p|]; [| reflexivity].
  destruct p; reflexivity.
Qed.

Lemma express_handleSuccess_at_most_once (this : Driver) (result : returned)
    (method : MethodMetadata) (options : Method) :
  nexts options
        (ExpressDriver.handleSuccess (BaseDriverOverrides.transformResult classToPlain)
                                     this result method options) <= 1.
Proof.
  apply express_handleSuccess_bounded. apply transformResult_overrides_no_next.
Qed.

(** The same bound with the other revision of the base class. *)
Lemma handleSuccess_bounded_base_revision (this : Driver) (result : returned)
    (method : MethodMetadata) (options : Method) :
  nexts options
        (ExpressDriver.handleSuccess (BaseDriver.transformResult classToPlain)
                                     this result method options) <= 1
  /\ nexts options
           (KoaDriver.handleSuccess (BaseDriver.transformResult classToPlain)
                                    this result method options) <= 1.
Proof.
  split.
  - apply express_handleSuccess_bounded. apply transformResult_no_next.
  - apply koa_handleSuccess_bounded. apply transformResult_no_next.
Qed.

Lemma bind_pure_l {A B} (a : A) (f : A -> M B) : bind ([], Normal a) f = f a.
Proof.
  unfold bind, trace_of, outcome_of. now destruct (f a).
Qed.

Lemma is_stream_pipe (r : returned) :
  nullish_r r = false -> pipe_is_function r = Normal (is_stream r).
Proof.
  unfold is_stream. destruct r as [v|ref kind]; [destruct v | destruct kind];
    cbn; intros H; try reflexivity; discriminate.
Qed.

Lemma binary_not_nullish (r : returned) : is_binary r = true -> nullish_r r = false.
Proof.
  destruct r as [v|ref kind]; [destruct v | destruct kind]; cbn; intros H;
    try reflexivity; discriminate.
Qed.

Lemma stream_not_nullish (r : returned) : is_stream r = true -> nullish_r r = false.
Proof.
  destruct r as [v|ref kind]; [destruct v | destruct kind]; cbn; intros H;
    try reflexivity; discriminate.
Qed.

(** The express [handleSuccess] past its short-circuit, by the transformed
    result: how often it advances control. *)
Lemma express_handleSuccess_paths (this : Driver) (result r' : returned)
    (method : MethodMetadata) (options : Method) :
  express_short_circuit result options = false ->
  BaseDriverOverrides.transformResult classToPlain this result method options
  = ([], Normal r') ->
  let run := ExpressDriver.handleSuccess (BaseDriverOverrides.transformResult classToPlain)
                                         this result method options in
  nexts options run
  = match outcome_of run with
    | Throw _ => 0
    | Normal _ =>
        if is_undefined r' then (if truthy (undefinedResultCode method) then 1 else 0)
        else if is_null r' then 1
        else if is_binary r' then 0
        else if is_stream r' then 0
        else 1
    end.
Proof.
  intros Hshort Htransform. cbv zeta. unfold ExpressDriver.handleSuccess.
  unfold express_short_circuit in Hshort. rewrite Hshort, Htransform, bind_pure_l.
  rewrite nexts_bind, outcome_bind.
  match goal with
  | |- nexts _ ?status + _ = _ =>
      assert (Hstatus : nexts options status = 0) by (split_ifs; reflexivity);
      rewrite Hstatus; destruct (outcome_of status); [| reflexivity]
  end.
  rewrite nexts_bind, outcome_bind, nexts_apply_headers.
  destruct (outcome_of (apply_headers method (response options))); [| reflexivity].
  cbn [Nat.add]. unfold is_binary.
  destruct (is_undefined r') eqn:Hundef.
  { destruct (truthy (undefinedResultCode method));
      [now rewrite nexts_emit_next | reflexivity]. }
  destruct (is_null r') eqn:Hnull; [now rewrite nexts_emit_next |].
  assert (Hpipe : pipe_is_function r' = Normal (is_stream r')).
  { apply is_stream_pipe. unfold nullish_r. now rewrite Hundef, Hnull. }
  destruct (instanceof_Buffer r') eqn:Hbuf.
  { replace (instanceof_Uint8Array r') with true; [reflexivity |].
    destruct r' as [v|ref kind]; [discriminate | destruct kind; try discriminate; reflexivity]. }
  destruct (instanceof_Uint8Array r'); [reflexivity |].
  rewrite Hpipe. unfold lift. rewrite bind_pure_l.
  destruct (is_stream r'); [reflexivity |].
  rewrite nexts_bind, outcome_bind. cbn [outcome_of snd emit].
  now rewrite nexts_emit_next.
Qed.

(** A binary or stream result is ended or piped; [next] is not called. *)
Lemma express_handleSuccess_binary_stream (this : Driver) (result r' : returned)
    (method : MethodMetadata) (options : Method) :
  express_short_circuit result options = false ->
  BaseDriverOverrides.transformResult classToPlain this result method options
  = ([], Normal r') ->
  is_binary r' || is_stream r' = true ->
  nexts options
        (ExpressDriver.handleSuccess (BaseDriverOverrides.transformResult classToPlain)
                                     this result method options) = 0.
Proof.
  intros Hshort Htransform Hcase.
  pose proof (express_handleSuccess_paths this result r' method options
                Hshort Htransform) as Hpaths.
  cbv zeta in Hpaths. rewrite Hpaths.
  destruct (outcome_of (ExpressDriver.handleSuccess _ _ _ _ _)); [| reflexivity].
  apply orb_true_iff in Hcase as [Hbin|Hstream].
  - pose proof (binary_not_nullish _ Hbin) as Hnn. unfold nullish_r in Hnn.
    apply orb_false_iff in Hnn as [-> ->]. now rewrite Hbin.
  - pose proof (stream_not_nullish _ Hstream) as Hnn. unfold nullish_r in Hnn.
    apply orb_false_iff in Hnn as [-> ->]. rewrite Hstream.
    now destruct (is_binary r').
Qed.

(** The koa [handleSuccess] advances control once on every path that
    returns, and not at all on a path that throws. *)
Lemma koa_handleSuccess_paths (this : Driver) (result : returned)
    (action : MethodMetadata) (options : Method) :
  let run := KoaDriver.handleSuccess (BaseDriverOverrides.transformResult classToPlain)
                                     this result action options in
  nexts options run = match outcome_of run with Normal _ => 1 | Throw _ => 0 end.
Proof.
  cbv zeta. unfold KoaDriver.handleSuccess.
  destruct (truthy_r result
            && (same_object result (response options)
                || same_object_opt result (context options))).
  - now rewrite nexts_emit_next.
  - destruct (transformResult_overrides_pure this result action options) as [r' ->].
    rewrite bind_pure_l, nexts_bind, outcome_bind.
    match goal with
    | |- nexts _ ?status + _ = _ =>
        assert (Hstatus : nexts options status = 0) by (split_ifs; reflexivity);
        rewrite Hstatus; destruct (outcome_of status); [| reflexivity]
    end.
    rewrite nexts_bind, outcome_bind, nexts_apply_headers.
    destruct (outcome_of (apply_headers action (response options))); [| reflexivity].
    now rewrite nexts_emit_next.
Qed.

End HandleSuccess.

(** C2 (as amended).  [handleSuccess] advances control at most once on
    every path, in both drivers.  The koa driver advances exactly once on
    every path that returns.  The express driver advances exactly once on its
    short-circuit and, when it returns, for an undefined result with an
    [undefinedResultCode], for a null result and for a regular result. *)
Theorem handleSuccess_advances_at_most_once (classToPlain : returned -> value -> returned)
    (this : Driver) (result : returned) (method : MethodMetadata) (options : Method) :
  let transformResult := BaseDriverOverrides.transformResult classToPlain in
  let express := ExpressDriver.handleSuccess transformResult this result method options in
  let koa := KoaDriver.handleSuccess transformResult this result method options in
  nexts options express <= 1
  /\ nexts options koa <= 1
  /\ (outcome_of koa = Normal tt -> nexts options koa = 1)
  /\ (express_short_circuit result options = true ->
      express = ([CallNext (next options)], Normal tt))
  /\ (forall r',
        express_short_circuit result options = false ->
        transformResult this result method options = ([], Normal r') ->
        outcome_of express = Normal tt ->
        is_undefined r' && truthy (undefinedResultCode method)
          || is_null r' || is_regular r' = true ->
        nexts options express = 1).
Proof.
  cbv zeta. split; [apply express_handleSuccess_at_most_once |].
  pose proof (koa_handleSuccess_paths classToPlain this result method options) as Hkoa.
  cbv zeta in Hkoa.
  split; [rewrite Hkoa; destruct (outcome_of (KoaDriver.handleSuccess _ _ _ _ _)); lia |].
  split; [intros Hret; now rewrite Hkoa, Hret |].
  clear Hkoa. split.
  { intros Hshort. unfold express_short_circuit in Hshort.
    unfold ExpressDriver.handleSuccess. now rewrite Hshort. }
  intros r' Hshort Htransform.
  pose proof (express_handleSuccess_paths classToPlain this result r' method options
                Hshort Htransform) as Hpaths.
  cbv zeta in Hpaths. rewrite Hpaths.
  intros -> Hcase. unfold is_regular, nullish_r in Hcase.
  destruct (is_undefined r') eqn:Hundef.
  - assert (Hnull : is_null r' = false)
      by (destruct r' as [v|ref kind]; [destruct v | ]; easy).
    rewrite Hnull in Hcase. cbn in Hcase.
    destruct (truthy (undefinedResultCode method)); [reflexivity | discriminate].
  - destruct (is_null r'); [reflexivity |]. cbn in Hcase.
    destruct (is_binary r'); [discriminate |].
    destruct (is_stream r'); [discriminate | reflexivity].
Qed.

Lemma handleSuccess_advances_at_most_once_witness :
  nexts Samples.handle
        (ExpressDriver.handleSuccess
           (BaseDriverOverrides.transformResult Samples.identityTransform)
           Samples.production (Data (VString "hi")) Samples.mathAdd Samples.handle)
  = 1
  /\ nexts Samples.handle
           (KoaDriver.handleSuccess
              (BaseDriverOverrides.transformResult Samples.identityTransform)
              Samples.production (Data (VString "hi")) Samples.mathAdd Samples.handle)
     = 1.
Proof.
  destruct (handleSuccess_advances_at_most_once Samples.identityTransform
              Samples.production (Data (VString "hi")) Samples.mathAdd Samples.handle)
    as (_ & _ & Hkoa & _ & Hexpress).
  split.
  - apply (Hexpress (Data (VString "hi"))); reflexivity.
  - apply Hkoa. reflexivity.
Defined.

(** C2, the claim as worded, fails: the sample method [add] returns a
    [Buffer]; the express driver ends the response with it and returns
    without having called [next]. *)
Lemma express_handleSuccess_buffer_never_advances :
  let run := ExpressDriver.handleSuccess
               (BaseDriverOverrides.transformResult Samples.identityTransform)
               Samples.production Samples.safasfas Samples.mathAdd Samples.handle in
  outcome_of run = Normal tt /\ nexts Samples.handle run <> 1.
Proof.
  cbv zeta. split; [reflexivity |]. vm_compute. discriminate.
Qed.

(* ===================================================================== *)
(** * Part III: further properties of the modelled code                   *)
(* ===================================================================== *)

Import Observations.

(** ** merge, beyond the override case *)

Lemma keys_set_prop (k : string) (v : value) (ps : props) :
  keys (set_prop k v ps) = if has_key k ps then keys ps else (keys ps ++ [k])%list.
Proof.
  induction ps as [|[k0 v0] ps IH]; simpl; [reflexivity |].
  destruct (k0 =? k) eqn:Hk; simpl; [reflexivity |].
  rewrite IH. now destruct (has_key k ps).
Qed.








(** X2.  A merge into an object that completes never loses or invents a
    key: the keys of the result are those of either argument. *)
Theorem merge_keys_union (ps1 : props) (obj2 merged : value) (k : string) :
  merge (VObject ps1) obj2 = Normal merged ->
  has_key k (for_in merged) = has_key k ps1 || has_key k (for_in obj2).
Proof.
  intros Hrun. destruct (merge_object_keys _ _ _ Hrun) as (out & -> & Hkeys).
  apply Hkeys.
Qed.

Lemma merge_keys_union_witness :
  has_key "y" (for_in (VObject [("x", VNumber 1); ("y", VNumber 2)])) = true.
Proof.
  rewrite (merge_keys_union [("x", VNumber 1)] (VObject [("y", VNumber 2)])
             (VObject [("x", VNumber 1); ("y", VNumber 2)]) "y").
  - reflexivity.
  - reflexivity.
Defined.

Lemma merge_throws_on_scalar (ps1 : props) (obj2 : value) :
  accepts_in obj2 = false -> ps1 <> [] ->
  exists msg, merge (VObject ps1) obj2 = Throw (TypeError msg).
Proof.
  intros Hscalar Hne. destruct ps1 as [|[i x] ps1]; [contradiction |].
  destruct obj2; try discriminate; simpl; eexists; reflexivity.
Qed.

(** X3.  [merge] cannot take a value that is no object on the right as soon
    as the left side has a key: the [in] test of the first iteration throws
    a [TypeError].  With an empty left side it completes for every right
    side. *)
Theorem merge_rejects_non_object (ps1 : props) (obj2 : value) :
  accepts_in obj2 = false ->
  (ps1 <> [] -> exists msg, merge (VObject ps1) obj2 = Throw (TypeError msg))
  /\ merge (VObject []) obj2 = Normal (VObject (second_loop obj2 [])).
Proof.
  intros Hscalar. split; [| reflexivity].
  intros Hne. now apply merge_throws_on_scalar.
Qed.

Lemma merge_rejects_non_object_witness :
  exists msg,
    merge (VObject [("name", VString "Error")]) (VNumber 404) = Throw (TypeError msg).
Proof.
  destruct (merge_rejects_non_object [("name", VString "Error")] (VNumber 404) eq_refl)
    as [Hthrows _].
  apply Hthrows. discriminate.
Defined.



(** ** buildHeaders and build, beyond idempotence *)

Lemma NoDup_keys_set_prop (k : string) (v : value) (ps : props) :
  NoDup (keys ps) -> NoDup (keys (set_prop k v ps)).
Proof.
  intros Hnodup. rewrite keys_set_prop.
  destruct (has_key k ps) eqn:Hk; [exact Hnodup |].
  assert (Hfresh : ~ In k (keys ps)).
  { clear - Hk. induction ps as [|[k0 v0] ps IH]; simpl in *; [tauto |].
    apply orb_false_iff in Hk as [Hk0 Hrest].
    intros [->|Hin]; [now rewrite String.eqb_refl in Hk0 | now apply IH]. }
  apply NoDup_app; [exact Hnodup | repeat constructor; simpl; tauto |].
  intros x Hin [Hx|[]]. subst x. contradiction.
Qed.

Lemma NoDup_keys_assign_all {A} (key : A -> string) (val : A -> value) (xs : list A) :
  forall target,
    NoDup (keys target) ->
    NoDup (keys (fold_left (fun hs x => set_prop (key x) (val x) hs) xs target)).
Proof.
  induction xs as [|x xs IH]; simpl; intros target Hnodup; [exact Hnodup |].
  apply IH. now apply NoDup_keys_set_prop.
Qed.

(** The header map of a method never holds a name twice, whatever
    directives it is built from. *)
Theorem buildHeaders_keys_distinct (responseHandlers : list ResponseHandlerMetadata) :
  NoDup (keys (for_in (buildHeaders responseHandlers))).
Proof.
  unfold buildHeaders. cbn [for_in].
  apply NoDup_keys_assign_all.
  destruct (find_handler "content-type" responseHandlers); simpl; repeat constructor.
  simpl. tauto.
Qed.

Lemma lookup_assign_handlers (name : string) (hs : list ResponseHandlerMetadata) :
  forall target,
    lookup name
      (fold_left (fun acc handler =>
                    set_prop (ToString (rh_value handler)) (rh_secondaryValue handler) acc)
                 (filter (fun handler => rh_type handler =? "header") hs) target)
    = match last_header name hs with
      | Some v => Some v
      | None => lookup name target
      end.
Proof.
  induction hs as [|h hs IH]; simpl; intros target; [reflexivity |].
  destruct (rh_type h =? "header"); simpl.
  - rewrite IH. destruct (last_header name hs); [reflexivity |].
    rewrite lookup_set_prop. now destruct (ToString (rh_value h) =? name).
  - rewrite IH. now destruct (last_header name hs).
Qed.

(** X5.  What a header name maps to after [buildHeaders]: the value of the
    last [header] directive declared for that name; failing that, for
    [Content-type], the value of the first [content-type] directive; and
    nothing otherwise.  An explicit [Content-type] header directive thus
    overrides the content-type directive. *)
Theorem buildHeaders_lookup (responseHandlers : list ResponseHandlerMetadata)
    (name : string) :
  lookup name (for_in (buildHeaders responseHandlers))
  = match last_header name responseHandlers with
    | Some v => Some v
    | None =>
        if "Content-type" =? name
        then option_map rh_value (find_handler "content-type" responseHandlers)
        else None
    end.
Proof.
  unfold buildHeaders. cbn [for_in]. rewrite lookup_assign_handlers.
  destruct (last_header name responseHandlers); [reflexivity |].
  destruct (find_handler "content-type" responseHandlers) as [h|]; cbn [option_map].
  - rewrite lookup_set_prop. reflexivity.
  - cbn [lookup]. now destruct ("Content-type" =? name).
Qed.

Lemma find_handler_app (t : string) (hs more : list ResponseHandlerMetadata)
    (h : ResponseHandlerMetadata) :
  find_handler t hs = Some h -> find_handler t (hs ++ more)%list = Some h.
Proof.
  unfold find_handler. induction hs as [|h0 hs IH]; simpl; [discriminate |].
  destruct (rh_type h0 =? t); [auto | exact IH].
Qed.

(** X6.  The single-valued directives are decided by their first
    occurrence: once a list of handlers holds an [on-undefined], [on-null],
    [success-code] or transform-options directive, handlers declared after it
    do not change the code or options the method is built with. *)
Theorem build_first_directive_wins (hs more : list ResponseHandlerMetadata)
    (m : MethodMetadata) (h : ResponseHandlerMetadata) :
  (find_handler "on-undefined" hs = Some h ->
   undefinedResultCode (build (hs ++ more) m) = rh_value h)
  /\ (find_handler "on-null" hs = Some h ->
      nullResultCode (build (hs ++ more) m) = rh_value h)
  /\ (find_handler "success-code" hs = Some h ->
      successHttpCode (build (hs ++ more) m) = rh_value h)
  /\ (find_handler "response-class-transform-options" hs = Some h ->
      responseClassTransformOptions (build (hs ++ more) m) = rh_value h).
Proof.
  repeat split; intros Hfind; apply (find_handler_app _ _ more) in Hfind;
    unfold build; rewrite Hfind;
    repeat match goal with
           | |- context [find_handler ?t ?l] => destruct (find_handler t l)
           end; reflexivity.
Qed.

Lemma build_first_directive_wins_witness :
  successHttpCode
    (build ([mkResponseHandler "success-code" (VNumber 201) VUndefined VUndefined]
            ++ [mkResponseHandler "success-code" (VNumber 202) VUndefined VUndefined])
           Samples.mathAdd)
  = VNumber 201.
Proof.
  destruct (build_first_directive_wins
              [mkResponseHandler "success-code" (VNumber 201) VUndefined VUndefined]
              [mkResponseHandler "success-code" (VNumber 202) VUndefined VUndefined]
              Samples.mathAdd
              (mkResponseHandler "success-code" (VNumber 201) VUndefined VUndefined))
    as (_ & _ & Hsuccess & _).
  apply Hsuccess. reflexivity.
Defined.

(** X7.  [build] assigns [successHttpCode] and
    [responseClassTransformOptions] only when a directive is present: built
    without one, the method keeps whatever value it had, whereas the
    undefined and null codes fall back to the configured defaults and the
    headers are computed from the handlers alone. *)
Theorem build_without_directive (hs : list ResponseHandlerMetadata) (m : MethodMetadata) :
  (find_handler "success-code" hs = None ->
   successHttpCode (build hs m) = successHttpCode m)
  /\ (find_handler "response-class-transform-options" hs = None ->
      responseClassTransformOptions (build hs m) = responseClassTransformOptions m)
  /\ (find_handler "on-undefined" hs = None ->
      undefinedResultCode (build hs m)
      = match defaults (options m) with
        | Some d => d_undefinedResultCode d
        | None => VUndefined
        end)
  /\ (find_handler "on-null" hs = None ->
      nullResultCode (build hs m)
      = match defaults (options m) with
        | Some d => d_nullResultCode d
        | None => VUndefined
        end)
  /\ headers (build hs m) = buildHeaders hs.
Proof.
  repeat split; try intros Hfind; unfold build; try rewrite Hfind;
    repeat match goal with
           | |- context [find_handler ?t ?l] => destruct (find_handler t l)
           end; reflexivity.
Qed.

Lemma build_without_directive_witness :
  successHttpCode
    (build [] (build [mkResponseHandler "success-code" (VNumber 201) VUndefined VUndefined]
                     Samples.mathAdd))
  = VNumber 201.
Proof.
  destruct (build_without_directive []
              (build [mkResponseHandler "success-code" (VNumber 201) VUndefined VUndefined]
                     Samples.mathAdd))
    as (Hsuccess & _).
  rewrite Hsuccess; reflexivity.
Defined.

(** [build] touches the derived members only: the declaration of the
    method (controller, parameters, target, method, type, name, body options,
    application options) is the same before and after. *)
Theorem build_frame (hs : list ResponseHandlerMetadata) (m : MethodMetadata) :
  controllerMetadata (build hs m) = controllerMetadata m
  /\ params (build hs m) = params m
  /\ target (build hs m) = target m
  /\ method (build hs m) = method m
  /\ type (build hs m) = type m
  /\ name (build hs m) = name m
  /\ bodyExtraOptions (build hs m) = bodyExtraOptions m
  /\ options (build hs m) = options m.
Proof.
  unfold build.
  repeat match goal with
         | |- context [find_handler ?t ?l] => destruct (find_handler t l)
         end; repeat split.
Qed.

(** ** Routes: prefixes and the koa registration *)

(** X8.  How [appendBaseRoute] treats a literal fragment: an empty base
    or a base that has a slash anywhere is put in front as it is, a non-empty
    base without any slash gets one slash in front.  A base such as [a/b] is
    therefore not made to start with a slash. *)
Theorem appendBaseRoute_literal_prefix (baseRoute fragment : string) :
  appendBaseRoute baseRoute (RouteString fragment)
  = RouteString ((if negb (baseRoute =? "") && negb (includes baseRoute "/")
                  then "/" ++ baseRoute else baseRoute) ++ fragment).
Proof.
  unfold appendBaseRoute, basePrefix, indexOf, includes.
  destruct (String.eqb_spec baseRoute "") as [->|Hne]; [reflexivity |].
  assert (Hlen : (0 <? String.length baseRoute)%nat = true)
    by (destruct baseRoute; [contradiction | reflexivity]).
  rewrite Hlen. destruct (index 0 "/" baseRoute) as [n|]; [| reflexivity].
  assert (Hpos : (Z.of_nat n <? 0)%Z = false) by (apply Z.ltb_ge; lia).
  now rewrite Hpos.
Qed.

(** X9.  With an empty controller name the built [fullRoute] is the
    declared name itself, literal or pattern. *)
Theorem build_fullRoute_unnamed_controller (hs : list ResponseHandlerMetadata)
    (m : MethodMetadata) :
  cr_name (controllerMetadata m) = "" ->
  fullRoute (build hs m) = Some (name m).
Proof.
  intros Hname. unfold build.
  repeat match goal with
         | |- context [find_handler ?t ?l] => destruct (find_handler t l)
         end; simpl; unfold buildFullRoute; simpl; rewrite Hname; simpl;
    (destruct (name m) as [frag|pat]; [| reflexivity];
     destruct (String.eqb_spec frag "") as [->|_]; reflexivity).
Qed.

Lemma build_fullRoute_unnamed_controller_witness :
  fullRoute (build [] (newMethodMetadata (mkControllerRef "Test" "")
                                         (RoutePattern (mkRegExp "^/users/\d+$" "i"))
                                         "Test" "one" "get" (mkOptions None)))
  = Some (RoutePattern (mkRegExp "^/users/\d+$" "i")).
Proof.
  apply (build_fullRoute_unnamed_controller []
           (newMethodMetadata (mkControllerRef "Test" "")
                              (RoutePattern (mkRegExp "^/users/\d+$" "i"))
                              "Test" "one" "get" (mkOptions None))).
  reflexivity.
Defined.

(** X10.  The koa driver registers a built method under the lower-cased
    verb, at its [fullRoute] composed with the route prefix; with the default
    empty prefix that is the [fullRoute] itself.  A method that was never
    built can only be registered under an empty prefix: with any other prefix
    the composition throws a [TypeError]. *)
Theorem koa_registerMethod_route (executeCallback : Method -> M value)
    (this : Driver) (m : MethodMetadata) :
  (forall r, fullRoute m = Some r ->
     exists registration,
       KoaRequests.registerMethod executeCallback this m = Normal registration
       /\ KoaRequests.reg_verb registration = toLowerCase (type m)
       /\ KoaRequests.reg_route registration
          = Some (appendBaseRoute (routePrefix this) r)
       /\ (routePrefix this = "" -> KoaRequests.reg_route registration = Some r))
  /\ (fullRoute m = None -> routePrefix this <> "" ->
      exists msg,
        KoaRequests.registerMethod executeCallback this m = Throw (TypeError msg)).
Proof.
  split.
  - intros r Hroute. unfold KoaRequests.registerMethod. rewrite Hroute. simpl.
    eexists. split; [reflexivity | split; [reflexivity | split; [reflexivity |]]].
    intros ->. simpl. destruct r; reflexivity.
  - intros Hroute Hprefix. unfold KoaRequests.registerMethod. rewrite Hroute. simpl.
    rewrite (eqb_empty_false _ Hprefix). simpl. eexists. reflexivity.
Qed.

Lemma koa_registerMethod_route_witness :
  exists registration,
    KoaRequests.registerMethod (fun _ => ret VUndefined) Samples.production Samples.mathAdd
    = Normal registration
    /\ KoaRequests.reg_route registration = Some (RouteString "mathadd").
Proof.
  destruct (koa_registerMethod_route (fun _ => ret VUndefined)
              Samples.production Samples.mathAdd) as [Hbuilt _].
  destruct (Hbuilt (RouteString "mathadd") eq_refl)
    as (registration & Hrun & _ & _ & Hroute).
  exists registration. split; [exact Hrun | apply Hroute; reflexivity].
Defined.

(** X11.  The handle the koa route handler passes on carries the context,
    so a controller method that returns the koa context (or its response)
    makes [handleSuccess] do nothing but call [next], whatever the
    transformation and the method's directives are. *)
Theorem koa_context_result_short_circuits
    (transformResult : Driver -> returned -> MethodMetadata -> Method -> M returned)
    (this : Driver) (action : MethodMetadata)
    (context : KoaRequests.KoaContext) (next : nat) (kind : hostkind) :
  let handled result :=
    KoaRequests.routeHandler
      (fun options => KoaDriver.handleSuccess transformResult this result action options ;;
                      ret VUndefined)
      context next in
  handled (HostObject (KoaRequests.ctx_ref context) kind)
  = ([CallNext next], Normal VUndefined)
  /\ handled (HostObject (KoaRequests.ctx_response context) kind)
     = ([CallNext next], Normal VUndefined).
Proof.
  cbv zeta. unfold KoaRequests.routeHandler, KoaDriver.handleSuccess. simpl.
  rewrite !Nat.eqb_refl. rewrite orb_true_r. split; reflexivity.
Qed.

(** ** getParamFromRequest *)

Lemma lower_ascii_idempotent (c : ascii) : lower_ascii (lower_ascii c) = lower_ascii c.
Proof.
  destruct c as [[] [] [] [] [] [] [] []]; reflexivity.
Qed.

Lemma toLowerCase_idempotent (s : string) : toLowerCase (toLowerCase s) = toLowerCase s.
Proof.
  induction s as [|c s IH]; simpl; [reflexivity |].
  now rewrite lower_ascii_idempotent, IH.
Qed.

(** X12.  Header parameters are looked up by lower-cased name in both
    drivers: two names that differ only in the case of their letters read the
    same header, and a name reads the same as its lower-cased form. *)
Theorem header_param_case_insensitive
    (cookie_parse : value -> completion value)
    (action : Method) (context : KoaRequests.KoaContext) (request : Request)
    (n1 n2 : string) (required : bool) :
  toLowerCase n1 = toLowerCase n2 ->
  ExpressDriver.getParamFromRequest action (mkParam "header" (Some n1) required)
  = ExpressDriver.getParamFromRequest action (mkParam "header" (Some n2) required)
  /\ KoaRequests.getParamFromRequest cookie_parse context request
       (mkParam "header" (Some n1) required)
     = KoaRequests.getParamFromRequest cookie_parse context request
         (mkParam "header" (Some n2) required)
  /\ ExpressDriver.getParamFromRequest action
       (mkParam "header" (Some (toLowerCase n1)) required)
     = ExpressDriver.getParamFromRequest action (mkParam "header" (Some n1) required).
Proof.
  intros Hcase. unfold ExpressDriver.getParamFromRequest, KoaRequests.getParamFromRequest.
  cbn [p_type p_name]. rewrite Hcase, toLowerCase_idempotent. repeat split.
Qed.

Lemma header_param_case_insensitive_witness :
  ExpressDriver.getParamFromRequest
    (mkHandle (mkRequest "GET" VUndefined VUndefined VUndefined VUndefined
                         (VObject [("x-test", VString "1")]) VUndefined VUndefined)
              1 None 2)
    (mkParam "header" (Some "X-Test") false)
  = Normal (VString "1").
Proof.
  destruct (header_param_case_insensitive
              (fun _ => Normal VUndefined)
              (mkHandle (mkRequest "GET" VUndefined VUndefined VUndefined VUndefined
                                   (VObject [("x-test", VString "1")]) VUndefined VUndefined)
                        1 None 2)
              (KoaRequests.mkContext 0 (request Samples.handle) 1 VUndefined VUndefined
                                     VUndefined VUndefined VUndefined VUndefined)
              (request Samples.handle)
              "X-Test" "x-test" false eq_refl) as (Hexpress & _ & _).
  rewrite Hexpress. reflexivity.
Defined.



(** X14.  The express driver answers undefined, without an error, for
    every parameter kind outside the twelve it has a case for; the cookie
    kinds, which the koa driver serves, are among them. *)
Theorem express_unknown_kind_undefined (action : Method) (t : string)
    (n : option string) (required : bool) :
  existsb (String.eqb t)
          ["body"; "body-param"; "param"; "params"; "session"; "state"; "query";
           "queries"; "header"; "headers"; "file"; "files"] = false ->
  ExpressDriver.getParamFromRequest action (mkParam t n required) = Normal VUndefined.
Proof.
  intros Hkind. cbn [existsb] in Hkind.
  repeat (apply orb_false_iff in Hkind as [? Hkind]).
  unfold ExpressDriver.getParamFromRequest. cbn [p_type].
  repeat match goal with
         | H : (t =? ?k) = false |- _ => rewrite H; clear H
         end.
  reflexivity.
Qed.

Lemma express_unknown_kind_undefined_witness :
  ExpressDriver.getParamFromRequest Samples.handle (mkParam "cookie" (Some "sid") true)
  = Normal VUndefined.
Proof.
  apply (express_unknown_kind_undefined Samples.handle "cookie" (Some "sid") true).
  reflexivity.
Defined.



(** X16.  A session parameter without a name (undefined or empty) is the
    whole session object, present or not; with a name it is a member read,
    which throws a [TypeError] on a request that has no session.  The koa
    driver treats state parameters the same way, where the express driver
    refuses them. *)
Theorem session_param_whole_or_member (cookie_parse : value -> completion value)
    (action : Method) (context : KoaRequests.KoaContext) (required : bool) :
  (forall n, ExpressDriver.name_truthy (mkParam "session" n required) = false ->
     ExpressDriver.getParamFromRequest action (mkParam "session" n required)
     = Normal (r_session (request action))
     /\ KoaRequests.getParamFromRequest cookie_parse context (request action)
          (mkParam "session" n required)
        = Normal (KoaRequests.ctx_session context)
     /\ KoaRequests.getParamFromRequest cookie_parse context (request action)
          (mkParam "state" n required)
        = Normal (KoaRequests.ctx_state context))
  /\ (forall n, n <> "" ->
        (is_nullish (r_session (request action)) = true ->
         exists msg,
           ExpressDriver.getParamFromRequest action (mkParam "session" (Some n) required)
           = Throw (TypeError msg))
        /\ KoaRequests.getParamFromRequest cookie_parse context (request action)
             (mkParam "state" (Some n) required)
           = get (KoaRequests.ctx_state context) n).
Proof.
  split.
  - intros n Hname.
    unfold ExpressDriver.getParamFromRequest, KoaRequests.getParamFromRequest.
    unfold ExpressDriver.name_truthy in *. cbn [p_type p_name] in *.
    simpl. destruct n as [n|]; [simpl in Hname; rewrite Hname |]; repeat split.
  - intros n Hn. unfold ExpressDriver.getParamFromRequest, KoaRequests.getParamFromRequest.
    cbn [p_type]. simpl. unfold ExpressDriver.name_truthy. cbn [p_name].
    rewrite (truthy_nonempty _ Hn). split; [| reflexivity].
    intros Hnull. unfold get. rewrite Hnull. eexists. reflexivity.
Qed.

Lemma session_param_whole_or_member_witness :
  ExpressDriver.getParamFromRequest Samples.handle (mkParam "session" None false)
  = Normal VUndefined.
Proof.
  destruct (session_param_whole_or_member (fun _ => Normal VUndefined) Samples.handle
              (KoaRequests.mkContext 0 (request Samples.handle) 1 VUndefined VUndefined
                                     VUndefined VUndefined VUndefined VUndefined)
              false) as [Hwhole _].
  destruct (Hwhole None eq_refl) as (Hexpress & _ & _). exact Hexpress.
Defined.

(** ** transformResult and handleSuccess: what reaches the response *)

Lemma trace_bind {A B} (m : M A) (f : A -> M B) :
  trace_of (bind m f)
  = (trace_of m ++ match outcome_of m with
                   | Normal a => trace_of (f a)
                   | Throw _ => []
                   end)%list.
Proof.
  destruct m as [t [a|e]]; simpl; [reflexivity | now rewrite app_nil_r].
Qed.

Lemma outcome_emit (e : event) : outcome_of (emit e) = Normal tt.
Proof. reflexivity. Qed.

Lemma outcome_ret {A} (a : A) : outcome_of (ret a) = Normal a.
Proof. reflexivity. Qed.

Lemma trace_emit (e : event) : trace_of (emit e) = [e].
Proof. reflexivity. Qed.

Lemma trace_ret {A} (a : A) : trace_of (ret a) = [].
Proof. reflexivity. Qed.

Lemma outcome_pair {A} (t : list event) (c : completion A) : outcome_of (t, c) = c.
Proof. reflexivity. Qed.

Lemma trace_pair {A} (t : list event) (c : completion A) : trace_of (t, c) = t.
Proof. reflexivity. Qed.

Lemma status_calls_app (t1 t2 : list event) :
  status_calls (t1 ++ t2) = (status_calls t1 ++ status_calls t2)%list.
Proof. apply flat_map_app. Qed.

Lemma header_calls_app (t1 t2 : list event) :
  header_calls (t1 ++ t2) = (header_calls t1 ++ header_calls t2)%list.
Proof. apply flat_map_app. Qed.

Lemma body_calls_app (t1 t2 : list event) :
  body_calls (t1 ++ t2) = (body_calls t1 ++ body_calls t2)%list.
Proof. apply filter_app. Qed.

(** What applying the headers of a built method does: one header call per
    name, in the order of the map, and nothing else. *)
Lemma apply_headers_object (method : MethodMetadata) (res : nat) (hs : props) :
  headers method = VObject hs ->
  outcome_of (apply_headers method res) = Normal tt
  /\ status_calls (trace_of (apply_headers method res)) = []
  /\ body_calls (trace_of (apply_headers method res)) = []
  /\ header_calls (trace_of (apply_headers method res))
     = map (fun name => (name, member (VObject hs) name)) (keys hs).
Proof.
  intros Hheaders. unfold apply_headers, Object_keys, lift. rewrite Hheaders.
  cbn [is_nullish for_in]. rewrite bind_pure_l.
  generalize (keys hs) as names. intros names.
  induction names as [|n names (IHout & IHstatus & IHbody & IHheader)];
    [repeat split |].
  cbn [forEach]. rewrite outcome_bind, trace_bind.
  cbn [emit outcome_of trace_of fst snd].
  rewrite status_calls_app, body_calls_app, header_calls_app.
  rewrite IHout, IHstatus, IHbody, IHheader. repeat split.
Qed.

Lemma apply_headers_undefined (method : MethodMetadata) (res : nat) :
  is_nullish (headers method) = true ->
  exists msg, apply_headers method res = ([], Throw (TypeError msg)).
Proof.
  intros Hnull. unfold apply_headers, Object_keys. rewrite Hnull.
  eexists. reflexivity.
Qed.


(** [transformResult] of the revision the drivers are written
    against never throws and makes no host call; it hands the result to the
    class transformer exactly when the transformer is enabled and the result
    is an object that is neither binary nor a stream, with the method's own
    options when they are set and the driver's otherwise, and returns every
    other result as it is. *)
Theorem transformResult_overrides_table (classToPlain : returned -> value -> returned)
    (this : Driver) (result : returned) (action : MethodMetadata) (options : Method) :
  BaseDriverOverrides.transformResult classToPlain this result action options
  = ([], Normal
           (if useClassTransformer this && instanceof_Object_r result
               && negb (is_binary result) && negb (is_stream result)
            then classToPlain result
                   (if truthy (responseClassTransformOptions action)
                    then responseClassTransformOptions action
                    else classToPlainTransformOptions this)
            else result)).
Proof.
  unfold BaseDriverOverrides.transformResult, shouldTransform, js_or, is_binary, is_stream.
  destruct (useClassTransformer this); [| reflexivity].
  destruct result as [v|ref kind]; [destruct v as [| | | | | |ps] | destruct kind];
    cbn; try reflexivity.
  destruct (instanceof_Function (member (VObject ps) "pipe")); reflexivity.
Qed.

Lemma string_of_nat_not_pipe (i : nat) : (string_of_nat i =? "pipe") = false.
Proof.
  unfold string_of_nat. destruct (Nat.to_uint i); reflexivity.
Qed.

Lemma chars_have_no_pipe (s : string) :
  forall i, lookup "pipe" (chars_from i s) = None.
Proof.
  induction s as [|c s IH]; intros i; cbn [chars_from lookup]; [reflexivity |].
  now rewrite string_of_nat_not_pipe.
Qed.

Lemma express_status_block_quiet (ucode ncode scode : value) (res : nat) (r : returned)
    (status : M unit) :
  status
  = (if is_undefined r && truthy ucode
     then if instanceof_Function ucode then throw_constructed ucode
          else emit (SetStatus res ucode)
     else if is_null r
          then if truthy ncode
               then if instanceof_Function ncode then throw_constructed ncode
                    else emit (SetStatus res ncode)
               else emit (SetStatus res (VNumber 204))
          else if truthy scode then emit (SetStatus res scode) else ret tt) ->
  body_calls (trace_of status) = [] /\ header_calls (trace_of status) = [].
Proof.
  intros ->. split_ifs; split; reflexivity.
Qed.

(** X17.  With [transformResult] of src/driver/BaseDriver.ts, the binary
    branches of the express [handleSuccess] are out of reach: a [Buffer] or
    typed-array result of a built method is turned into a binary string
    first, answered with [response.json], and followed by [next]. *)
Theorem express_binary_becomes_json (classToPlain : returned -> value -> returned)
    (this : Driver) (result : returned) (method : MethodMetadata) (options : Method)
    (hs : props) :
  is_binary result = true ->
  same_object result (response options) = false ->
  headers method = VObject hs ->
  let run := ExpressDriver.handleSuccess (BaseDriver.transformResult classToPlain)
                                         this result method options in
  outcome_of run = Normal tt
  /\ body_calls (trace_of run)
     = [SendJson (response options)
                 (Data (VString (string_of_list_byte (bytes_of result))))]
  /\ nexts options run = 1.
Proof.
  intros Hbinary Hother Hheaders. cbv zeta.
  unfold ExpressDriver.handleSuccess. rewrite Hother, andb_false_r.
  assert (Htransform :
            BaseDriver.transformResult classToPlain this result method options
            = ([], Normal (Data (VString (string_of_list_byte (bytes_of result)))))).
  { unfold BaseDriver.transformResult, shouldTransform, is_binary in *.
    destruct result as [v|ref kind]; [discriminate |].
    destruct kind; try discriminate; destruct (useClassTransformer this); reflexivity. }
  rewrite Htransform, bind_pure_l.
  set (sent := Data (VString (string_of_list_byte (bytes_of result)))).
  cbn [is_undefined is_null sent andb].
  destruct (apply_headers_object method (response options) hs Hheaders)
    as (Hout & _ & Hbody & _).
  assert (Hpipe : pipe_is_function sent = Normal false).
  { unfold sent, pipe_is_function, get, member. cbn [is_nullish for_in cbind].
    now rewrite chars_have_no_pipe. }
  unfold nexts.
  assert (Hbranch : instanceof_Buffer sent = false /\ instanceof_Uint8Array sent = false)
    by (split; reflexivity).
  destruct Hbranch as [-> ->]. rewrite Hpipe. unfold lift. rewrite bind_pure_l.
  destruct (truthy (successHttpCode method));
    rewrite !outcome_bind, !trace_bind, ?outcome_emit, ?outcome_ret; cbv beta iota;
    rewrite Hout; cbv beta iota;
    rewrite ?outcome_emit, ?trace_emit, ?trace_ret, !body_calls_app, !count_next_app, Hbody;
    fold (nexts options (apply_headers method (response options)));
    rewrite nexts_apply_headers; cbn; rewrite Nat.eqb_refl; repeat split.
Qed.

Lemma express_binary_becomes_json_witness :
  body_calls
    (trace_of (ExpressDriver.handleSuccess
                 (BaseDriver.transformResult Samples.identityTransform)
                 Samples.production Samples.safasfas Samples.mathAdd Samples.handle))
  = [SendJson 1 (Data (VString "safasfas"))].
Proof.
  destruct (express_binary_becomes_json Samples.identityTransform Samples.production
              Samples.safasfas Samples.mathAdd Samples.handle [] eq_refl eq_refl eq_refl)
    as (_ & Hbody & _).
  exact Hbody.
Defined.

Lemma apply_headers_quiet (method : MethodMetadata) (res : nat) :
  status_calls (trace_of (apply_headers method res)) = []
  /\ body_calls (trace_of (apply_headers method res)) = [].
Proof.
  destruct (is_nullish (headers method)) eqn:Hnull.
  - destruct (apply_headers_undefined method res Hnull) as [msg ->]. split; reflexivity.
  - unfold apply_headers, Object_keys, lift. rewrite Hnull, bind_pure_l.
    generalize (keys (for_in (headers method))) as names. intros names.
    induction names as [|n names [IHs IHb]]; [split; reflexivity |].
    cbn [forEach]. rewrite trace_bind, outcome_emit, trace_emit.
    rewrite status_calls_app, body_calls_app, IHs, IHb. split; reflexivity.
Qed.

(** X18.  With [transformResult] of src/driver/BaseDriver.ts a stream
    result of a built method is piped into the response twice by the express
    driver, once by the transformation and once by [handleSuccess], and
    [next] is not called. *)
Theorem express_stream_piped_twice (classToPlain : returned -> value -> returned)
    (this : Driver) (result : returned) (method : MethodMetadata) (options : Method)
    (hs : props) :
  is_stream result = true ->
  is_binary result = false ->
  same_object result (response options) = false ->
  headers method = VObject hs ->
  let run := ExpressDriver.handleSuccess (BaseDriver.transformResult classToPlain)
                                         this result method options in
  outcome_of run = Normal tt
  /\ body_calls (trace_of run)
     = [PipeTo result (response options); PipeTo result (response options)]
  /\ nexts options run = 0.
Proof.
  intros Hstream Hbinary Hother Hheaders. cbv zeta.
  pose proof (stream_not_nullish _ Hstream) as Hnn.
  pose proof (is_stream_pipe _ Hnn) as Hpipe. rewrite Hstream in Hpipe.
  unfold nullish_r in Hnn. apply orb_false_iff in Hnn as [Hundef Hnull].
  assert (Hbuffer : instanceof_Buffer result = false).
  { unfold is_binary in Hbinary.
    destruct result as [v|ref kind]; [reflexivity | destruct kind; try reflexivity].
    discriminate. }
  unfold is_binary in Hbinary.
  unfold ExpressDriver.handleSuccess. rewrite Hother, andb_false_r.
  assert (Htransform :
            BaseDriver.transformResult classToPlain this result method options
            = ([PipeTo result (response options)], Normal result)).
  { unfold BaseDriver.transformResult, shouldTransform, nullish_r.
    rewrite Hbuffer, Hbinary, Hpipe, Hundef, Hnull. cbn [orb negb cbind].
    destruct (useClassTransformer this), (instanceof_Object_r result); reflexivity. }
  destruct (apply_headers_object method (response options) hs Hheaders)
    as (Hout & _ & Hbody & _).
  unfold nexts.
  rewrite outcome_bind, trace_bind, Htransform, outcome_pair, trace_pair. cbv beta iota.
  rewrite Hundef, Hnull, Hbuffer, Hbinary, Hpipe. cbn [andb].
  unfold lift. rewrite bind_pure_l.
  destruct (truthy (successHttpCode method));
    rewrite !outcome_bind, !trace_bind, ?outcome_emit, ?outcome_ret; cbv beta iota;
    rewrite Hout; cbv beta iota;
    rewrite ?outcome_emit, ?trace_emit, ?trace_ret, !body_calls_app, !count_next_app, Hbody;
    fold (nexts options (apply_headers method (response options)));
    rewrite nexts_apply_headers; repeat split.
Qed.

Lemma express_stream_piped_twice_witness :
  body_calls
    (trace_of (ExpressDriver.handleSuccess
                 (BaseDriver.transformResult Samples.identityTransform)
                 Samples.production (HostObject 7 KStream) Samples.mathAdd Samples.handle))
  = [PipeTo (HostObject 7 KStream) 1; PipeTo (HostObject 7 KStream) 1].
Proof.
  destruct (express_stream_piped_twice Samples.identityTransform Samples.production
              (HostObject 7 KStream) Samples.mathAdd Samples.handle []
              eq_refl eq_refl eq_refl eq_refl) as (_ & Hbody & _).
  exact Hbody.
Defined.













(** ** handleError *)

Import ErrorHandling.

Lemma statuses_app (t1 t2 : list call) :
  statuses (t1 ++ t2) = (statuses t1 ++ statuses t2)%list.
Proof. apply flat_map_app. Qed.

Lemma count_next_with_app (k : nat) (t1 t2 : list call) :
  count_next_with k (t1 ++ t2)%list = count_next_with k t1 + count_next_with k t2.
Proof.
  unfold count_next_with. now rewrite filter_app, length_app.
Qed.

Lemma host_calls_no_next (k : nat) (t : list event) :
  count_next_with k (map inl t) = 0.
Proof.
  induction t as [|e t IH]; [reflexivity | exact IH].
Qed.

Lemma host_calls_statuses (t : list event) :
  statuses (map inl t) = status_calls t.
Proof.
  induction t as [|e t IH]; [reflexivity |].
  cbn [map]. change (statuses (inl e :: map inl t))
    with ((match e with SetStatus _ code => [code] | _ => [] end)
          ++ statuses (map inl t))%list.
  rewrite IH. reflexivity.
Qed.

Lemma apply_headers_opt_quiet (method : option MethodMetadata) (res : nat) (k : nat) :
  statuses (fst (apply_headers_opt method res)) = []
  /\ count_next_with k (fst (apply_headers_opt method res)) = 0.
Proof.
  destruct method as [m|]; [| split; reflexivity].
  unfold apply_headers_opt, host. cbn [fst].
  rewrite host_calls_statuses, host_calls_no_next.
  destruct (apply_headers_quiet m res) as [-> _]. split; reflexivity.
Qed.

(** The host calls of the express [handleError], for any envelope
    builder. *)
Lemma express_handleError_calls
    (processJsonError : Driver -> thrown -> completion value)
    (this : Driver) (error : thrown) (method : option MethodMetadata) (options : Method) :
  let run := express_handleError processJsonError this error method options in
  (isDefaultErrorHandlingEnabled this = false ->
   run = ([inr (NextWith (next options) error)], Normal tt))
  /\ (isDefaultErrorHandlingEnabled this = true ->
      statuses (fst run)
      = [if truthy (httpCode error) then httpCode error else VNumber 500])
  /\ count_next_with (next options) (fst run)
     = match snd run with Normal _ => 1 | Throw _ => 0 end.
Proof.
  cbv zeta. unfold express_handleError.
  destruct (apply_headers_opt_quiet method (response options) (next options))
    as [Hhs Hhn].
  destruct (isDefaultErrorHandlingEnabled this).
  - assert (Hstatus :
              (if truthy (httpCode error)
               then host (emit (SetStatus (response options) (httpCode error)))
               else host (emit (SetStatus (response options) (VNumber 500))))
              = ([inl (SetStatus (response options)
                                 (if truthy (httpCode error)
                                  then httpCode error else VNumber 500))],
                 Normal tt))
      by (destruct (truthy (httpCode error)); reflexivity).
    rewrite Hstatus. clear Hstatus.
    destruct (apply_headers_opt method (response options)) as [th [[]|eh]];
      cbn [fst snd] in Hhs, Hhn.
    + destruct (processJsonError this error) as [body|e];
        cbn [ebind host lift trace_of outcome_of emit call_error fst snd map app];
        rewrite ?app_nil_r;
        (split; [discriminate |]);
        (split;
         [intros _;
          change (statuses (?x :: ?l)) with (statuses [x] ++ statuses l)%list;
          rewrite ?statuses_app, Hhs; reflexivity |]);
        change (count_next_with ?k (?x :: ?l))
          with (count_next_with k [x] + count_next_with k l);
        rewrite ?count_next_with_app, Hhn; cbn; now rewrite ?Nat.eqb_refl.
    + cbn [ebind host lift trace_of outcome_of emit call_error fst snd map app].
      rewrite ?app_nil_r. split; [discriminate |].
      split.
      * intros _. change (statuses (?x :: ?l)) with (statuses [x] ++ statuses l)%list.
        now rewrite Hhs.
      * change (count_next_with ?k (?x :: ?l))
          with (count_next_with k [x] + count_next_with k l).
        now rewrite Hhn.
  - cbn. rewrite Nat.eqb_refl. split; [reflexivity | split; [discriminate | reflexivity]].
Qed.

(** X23.  The express [handleError], whatever envelope builder it
    inherits: with default error handling off its only host call is
    [next(error)]; with it on, the status is set exactly once, to the error's
    [httpCode] when that is truthy and to 500 otherwise; and the error is
    handed to [next] exactly once on every run that returns, and not at all on
    a run that throws. *)
Theorem express_handleError_forwards_error
    (processJsonError : Driver -> thrown -> completion value)
    (this : Driver) (error : thrown) (method : option MethodMetadata) (options : Method) :
  let run := express_handleError processJsonError this error method options in
  (isDefaultErrorHandlingEnabled this = false ->
   run = ([inr (NextWith (next options) error)], Normal tt))
  /\ (isDefaultErrorHandlingEnabled this = true ->
      statuses (fst run)
      = [if truthy (httpCode error) then httpCode error else VNumber 500])
  /\ count_next_with (next options) (fst run)
     = match snd run with Normal _ => 1 | Throw _ => 0 end.
Proof.
  cbv zeta. split.
  - intros Hoff. unfold express_handleError. rewrite Hoff. reflexivity.
  - exact (proj2 (express_handleError_calls processJsonError this error method options)).
Qed.

Lemma express_handleError_forwards_error_witness :
  express_handleError BaseDriverOverrides.processJsonError
    (mkDriver false VUndefined false false "" None)
    (ThrownObject Samples.boom) None Samples.handle
  = ([inr (NextWith 2 (ThrownObject Samples.boom))], Normal tt).
Proof.
  destruct (express_handleError_forwards_error BaseDriverOverrides.processJsonError
              (mkDriver false VUndefined false false "" None)
              (ThrownObject Samples.boom) None Samples.handle) as (Hoff & _ & _).
  apply Hoff. reflexivity.
Defined.

Lemma apply_overrides_scalar_entry (name key : string) (entry : value)
    (entries ps : props) :
  find (fun kv => name =? fst kv) entries = Some (key, entry) ->
  accepts_in entry = false ->
  ps <> [] ->
  exists msg,
    BaseDriverOverrides.apply_overrides name entries (VObject ps) = Throw (TypeError msg).
Proof.
  intros Hfind Hscalar Hps.
  induction entries as [|[k0 v0] entries IH]; [discriminate |].
  cbn [find fst] in Hfind. cbn [BaseDriverOverrides.apply_overrides].
  destruct (name =? k0).
  - injection Hfind as -> ->.
    destruct (merge_throws_on_scalar ps entry Hscalar Hps) as [msg ->].
    exists msg. reflexivity.
  - now apply IH.
Qed.

(** X24.  An override entry that is no object breaks error handling: when
    the first entry of the override map under an error's classified name is a
    number, a string, a boolean, null or undefined, [processJsonError] throws a
    [TypeError] for every [Error] of that name, and the express [handleError]
    then throws after the status has been set, without having handed the
    error to [next]. *)
Theorem scalar_override_breaks_error_handling (this : Driver) (e : ErrorObject)
    (entries : props) (key : string) (entry : value)
    (method : option MethodMetadata) (options : Method) :
  e_toJSON e = None ->
  e_isError e = true ->
  errorOverridingMap this = Some entries ->
  find (fun kv => BaseDriverOverrides.classified_name e =? fst kv) entries
  = Some (key, entry) ->
  accepts_in entry = false ->
  (exists msg,
     BaseDriverOverrides.processJsonError this (ThrownObject e) = Throw (TypeError msg))
  /\ (isDefaultErrorHandlingEnabled this = true ->
      let run := express_handleError BaseDriverOverrides.processJsonError this
                                     (ThrownObject e) method options in
      (exists err, snd run = Throw err)
      /\ count_next_with (next options) (fst run) = 0
      /\ List.length (statuses (fst run)) = 1).
Proof.
  intros HtoJSON Herr Hmap Hfind Hscalar.
  assert (Hthrows : exists msg,
             BaseDriverOverrides.processJsonError this (ThrownObject e)
             = Throw (TypeError msg)).
  { destruct (processJsonError_overrides_unfold this e HtoJSON Herr)
      as (before & Hname & _ & ->).
    rewrite Hmap.
    destruct (apply_overrides_scalar_entry _ key entry entries before Hfind Hscalar)
      as [msg ->]; [| exists msg; reflexivity].
    intros ->. discriminate. }
  split; [exact Hthrows |].
  intros Henabled. cbv zeta.
  destruct (express_handleError_calls BaseDriverOverrides.processJsonError
              this (ThrownObject e) method options) as (_ & Hstatus & Hcount).
  rewrite (Hstatus Henabled).
  assert (Hrun : exists err,
             snd (express_handleError BaseDriverOverrides.processJsonError this
                                      (ThrownObject e) method options) = Throw err).
  { destruct Hthrows as [msg Hmsg]. unfold express_handleError.
    rewrite Henabled, Hmsg.
    destruct (truthy (httpCode (ThrownObject e)));
      destruct (apply_headers_opt method (response options)) as [th [[]|eh]];
      cbn; eexists; reflexivity. }
  split; [exact Hrun | split; [| reflexivity]].
  rewrite Hcount. destruct Hrun as [err ->]. reflexivity.
Qed.

Lemma scalar_override_breaks_error_handling_witness :
  exists msg,
    BaseDriverOverrides.processJsonError
      (mkDriver false VUndefined true false "" (Some [("Error", VNumber 404)]))
      (ThrownObject Samples.boom)
    = Throw (TypeError msg).
Proof.
  destruct (scalar_override_breaks_error_handling
              (mkDriver false VUndefined true false "" (Some [("Error", VNumber 404)]))
              Samples.boom [("Error", VNumber 404)] "Error" (VNumber 404)
              None Samples.handle eq_refl eq_refl eq_refl eq_refl eq_refl)
    as [Hthrows _].
  exact Hthrows.
Defined.

(** X25.  The koa [handleError] never calls [next] and never sets a
    status.  With default error handling off it makes no host call and
    rejects with the error itself; with it on and no method at hand, it
    assigns the envelope to the response body and resolves, or fails with the
    exception the envelope builder raised, leaving the body alone. *)
Theorem koa_handleError_settles
    (processJsonError : Driver -> thrown -> completion value)
    (this : Driver) (error : thrown) (action : option MethodMetadata) (options : Method) :
  let run := koa_handleError processJsonError this error action options in
  statuses (fst run) = []
  /\ count_next_with (next options) (fst run) = 0
  /\ (isDefaultErrorHandlingEnabled this = false -> run = ([], Rejected error))
  /\ (isDefaultErrorHandlingEnabled this = true -> action = None ->
      run = match processJsonError this error with
            | Normal body => ([inr (AssignBody (response options) body)], Resolved)
            | Throw e => ([], Failed e)
            end).
Proof.
  cbv zeta. unfold koa_handleError.
  destruct (apply_headers_opt_quiet action (response options) (next options))
    as [Hhs Hhn].
  destruct (isDefaultErrorHandlingEnabled this).
  - cbn [fst snd].
    assert (Hshape : forall run : E unit,
               run = ebind (apply_headers_opt action (response options))
                       (fun _ =>
                          ebind (host (lift (processJsonError this error)))
                            (fun body => call_error (AssignBody (response options) body))) ->
               statuses (fst run) = []
               /\ count_next_with (next options) (fst run) = 0).
    { intros run ->.
      destruct (apply_headers_opt action (response options)) as [th [[]|eh]];
        cbn [fst snd] in Hhs, Hhn;
        [destruct (processJsonError this error) as [body|e] |];
        cbn [ebind host lift trace_of outcome_of call_error fst snd map app];
        rewrite ?app_nil_r, ?statuses_app, ?count_next_with_app, ?Hhs, ?Hhn;
        split; reflexivity. }
    destruct (Hshape _ eq_refl) as [Hs Hn].
    split; [exact Hs | split; [exact Hn | split; [discriminate |]]].
    intros _ ->. destruct (processJsonError this error); reflexivity.
  - repeat split; discriminate.
Qed.

Lemma koa_handleError_settles_witness :
  koa_handleError BaseDriverOverrides.processJsonError Samples.production
                  (ThrownObject Samples.boom) None Samples.handle
  = ([inr (AssignBody 1 (VObject [("name", VString "Error");
                                  ("message", VString "boom")]))],
     Resolved).
Proof.
  destruct (koa_handleError_settles BaseDriverOverrides.processJsonError
              Samples.production (ThrownObject Samples.boom) None Samples.handle)
    as (_ & _ & _ & Hon).
  rewrite (Hon eq_refl eq_refl). reflexivity.
Defined.

(** ** processJsonError: what the envelope holds *)

(** X26.  An error that brings its own [toJSON], a thrown string and a
    thrown object that is no [Error] bypass the envelope: the answer does not
    depend on the driver's configuration (development mode, override map),
    never fails, and an override for the error's name is not applied. *)
Theorem processJsonError_bypass (this other : Driver) (error : thrown) :
  bypasses_envelope error = true ->
  BaseDriverOverrides.processJsonError this error
  = BaseDriverOverrides.processJsonError other error
  /\ exists v, BaseDriverOverrides.processJsonError this error = Normal v.
Proof.
  intros Hbypass. destruct error as [s|e]; cbn [bypasses_envelope] in Hbypass.
  - split; [reflexivity | eexists; reflexivity].
  - unfold BaseDriverOverrides.processJsonError.
    destruct (e_toJSON e); [split; [reflexivity | eexists; reflexivity] |].
    apply negb_true_iff in Hbypass. rewrite Hbypass.
    split; [reflexivity | eexists; reflexivity].
Qed.

Lemma processJsonError_bypass_witness :
  BaseDriverOverrides.processJsonError Samples.production_overriding
    (ThrownObject (mkError (Some (VString "custom")) true false "Error" "Error"
                           (VString "boom") VUndefined VUndefined []))
  = Normal (VString "custom").
Proof.
  destruct (processJsonError_bypass Samples.production_overriding Samples.production
              (ThrownObject (mkError (Some (VString "custom")) true false "Error" "Error"
                                     (VString "boom") VUndefined VUndefined []))
              eq_refl) as [Hsame _].
  rewrite Hsame. reflexivity.
Defined.

Lemma lookup_copy_props (k : string) (src target : props) :
  NoDup (keys src) ->
  lookup k (copy_props src target)
  = match lookup k src with Some v => Some v | None => lookup k target end.
Proof.
  intros Hnodup. unfold copy_props. now apply lookup_assign_all.
Qed.

Lemma NoDup_keys_filter (f : string * value -> bool) (ps : props) :
  NoDup (keys ps) -> NoDup (keys (filter f ps)).
Proof.
  induction ps as [|[k v] ps IH]; simpl; intros Hnodup; [constructor |].
  inversion Hnodup as [|? ? Hnotin Hrest]; subst.
  destruct (f (k, v)); [| now apply IH].
  simpl. constructor; [| now apply IH].
  intros Hin. apply Hnotin. clear - Hin.
  induction ps as [|[k0 v0] ps IH]; simpl in *; [contradiction |].
  destruct (f (k0, v0)); simpl in Hin; [destruct Hin; auto | auto].
Qed.

Lemma lookup_filter_kept (f : string -> bool) (k : string) (ps : props) :
  f k = true -> lookup k (filter (fun kv => f (fst kv)) ps) = lookup k ps.
Proof.
  intros Hk. induction ps as [|[k0 v0] ps IH]; simpl; [reflexivity |].
  destruct (String.eqb_spec k0 k) as [->|Hne].
  - rewrite Hk. simpl. now rewrite String.eqb_refl.
  - destruct (f k0); simpl; [| exact IH].
    destruct (String.eqb_spec k0 k) as [->|_]; [contradiction | exact IH].
Qed.

Lemma lookup_filter_dropped (f : string -> bool) (k : string) (ps : props) :
  f k = false -> lookup k (filter (fun kv => f (fst kv)) ps) = None.
Proof.
  intros Hk. apply has_key_false_lookup. now apply has_key_filter_out.
Qed.

(** X27.  The envelope of an [Error] whose name has no override entry: it
    is always produced; its [name] is the classified name and its [message]
    the error's message when that is truthy, whatever own properties of those
    names the error has; every other own property of the error is copied as
    it is, except [stack] and, for an [RpcError] only, [httpCode]. *)
Theorem processJsonError_envelope_content (this : Driver) (e : ErrorObject) :
  e_toJSON e = None ->
  e_isError e = true ->
  NoDup (keys (e_own e)) ->
  no_override_for (BaseDriverOverrides.classified_name e) this = true ->
  exists envelope,
    BaseDriverOverrides.processJsonError this (ThrownObject e) = Normal (VObject envelope)
    /\ lookup "name" envelope = Some (VString (BaseDriverOverrides.classified_name e))
    /\ lookup "message" envelope
       = (if truthy (e_message e) then Some (e_message e) else None)
    /\ (forall k, (k =? "stack") = false -> (k =? "name") = false ->
                  (k =? "message") = false -> (k =? "httpCode") = false ->
                  lookup k envelope = lookup k (e_own e))
    /\ lookup "httpCode" envelope
       = (if e_isRpcError e then None else lookup "httpCode" (e_own e)).
Proof.
  intros HtoJSON Herr Hnodup Hnone.
  set (name := BaseDriverOverrides.classified_name e) in *.
  set (copied := filter (fun kv => reserved (e_isRpcError e) (fst kv)) (e_own e)).
  set (base := if truthy (e_stack e) && developmentMode this
               then set_prop "stack" (e_stack e)
                      (if truthy (e_message e)
                       then set_prop "message" (e_message e)
                              (set_prop "name" (VString name) [])
                       else set_prop "name" (VString name) [])
               else if truthy (e_message e)
                    then set_prop "message" (e_message e) (set_prop "name" (VString name) [])
                    else set_prop "name" (VString name) []).
  assert (Hcopied : NoDup (keys copied)) by (apply NoDup_keys_filter; exact Hnodup).
  assert (Hrun : BaseDriverOverrides.processJsonError this (ThrownObject e)
                 = Normal (VObject (copy_props copied base))).
  { unfold BaseDriverOverrides.processJsonError. rewrite HtoJSON, Herr.
    fold name. fold copied.
    replace (match errorOverridingMap this with
             | Some entries => BaseDriverOverrides.apply_overrides name entries _
             | None => _
             end)
      with (Normal (VObject (copy_props copied base))).
    - cbn [cbind for_in].
      assert (Hkey : has_key "name" (copy_props copied base) = true).
      { rewrite has_key_copy_props. unfold base.
        destruct (truthy (e_stack e) && developmentMode this), (truthy (e_message e));
          reflexivity. }
      now rewrite (keys_nonempty_of_has_key _ _ Hkey).
    - unfold no_override_for in Hnone. unfold copied, base.
      destruct (errorOverridingMap this) as [entries|]; [| reflexivity].
      symmetry. apply apply_overrides_none. exact Hnone. }
  exists (copy_props copied base). split; [exact Hrun |].
  assert (Hlookup : forall k,
             lookup k (copy_props copied base)
             = match lookup k copied with Some v => Some v | None => lookup k base end)
    by (intros k; now apply lookup_copy_props).
  split; [| split; [| split]].
  - rewrite Hlookup. unfold copied.
    rewrite (lookup_filter_dropped (reserved (e_isRpcError e)) "name")
      by (unfold reserved; now destruct (e_isRpcError e)).
    unfold base.
    destruct (truthy (e_stack e) && developmentMode this), (truthy (e_message e));
      reflexivity.
  - rewrite Hlookup. unfold copied.
    rewrite (lookup_filter_dropped (reserved (e_isRpcError e)) "message")
      by (unfold reserved; now destruct (e_isRpcError e)).
    unfold base.
    destruct (truthy (e_stack e) && developmentMode this), (truthy (e_message e));
      reflexivity.
  - intros k Hstack Hname Hmessage Hcode. rewrite Hlookup. unfold copied.
    rewrite (lookup_filter_kept (reserved (e_isRpcError e)) k)
      by (unfold reserved; rewrite Hstack, Hname, Hmessage, Hcode;
          now destruct (e_isRpcError e)).
    destruct (lookup k (e_own e)) as [v|]; [reflexivity |].
    unfold base.
    destruct (truthy (e_stack e) && developmentMode this), (truthy (e_message e));
      rewrite ?lookup_set_prop; cbn [lookup];
      rewrite ?(String.eqb_sym _ k), ?Hstack, ?Hname, ?Hmessage; reflexivity.
  - rewrite Hlookup. unfold copied. destruct (e_isRpcError e).
    + rewrite (lookup_filter_dropped (reserved true) "httpCode") by reflexivity.
      unfold base.
      destruct (truthy (e_stack e) && developmentMode this), (truthy (e_message e));
        reflexivity.
    + rewrite (lookup_filter_kept (reserved false) "httpCode") by reflexivity.
      destruct (lookup "httpCode" (e_own e)) as [v|]; [reflexivity |].
      unfold base.
      destruct (truthy (e_stack e) && developmentMode this), (truthy (e_message e));
        reflexivity.
Qed.

Lemma processJsonError_envelope_content_witness :
  exists envelope,
    BaseDriverOverrides.processJsonError Samples.production
                                         (ThrownObject Samples.detailed)
    = Normal (VObject envelope)
    /\ lookup "details" envelope
       = Some (VObject [("x", VNumber 1); ("y", VNumber 2)]).
Proof.
  destruct (processJsonError_envelope_content Samples.production Samples.detailed)
    as (envelope & Hrun & _ & _ & Hcopied & _); try reflexivity.
  - repeat constructor. simpl. tauto.
  - exists envelope. split; [exact Hrun |].
    rewrite (Hcopied "details"); reflexivity.
Defined.

(** X28.  [processJsonError] of src/driver/BaseDriver.ts always answers
    with an object that starts with [code], has [message] next when the
    message is truthy, and ends with [data].  The code is the error's own
    [rpcCode] for an [RpcError], the server-error code for every other thrown
    object (its own [rpcCode], if any, is ignored), and the internal-error
    code for a thrown string.  [data] never holds [name], [message] or
    [rpcCode], and holds [stack] exactly when the stack is truthy and
    development mode is on. *)
Theorem processJsonError_coded_envelope
    (InternalError_new : string -> ErrorObject) (ServerError_rpcCode : value)
    (this : Driver) (error : thrown) :
  let seen := match error with
              | ThrownString s => InternalError_new s
              | ThrownObject e => e
              end in
  let code := match error with
              | ThrownString s => e_rpcCode (InternalError_new s)
              | ThrownObject e => if e_isRpcError e then e_rpcCode e
                                  else ServerError_rpcCode
              end in
  exists data,
    BaseDriver.processJsonError InternalError_new ServerError_rpcCode this error
    = Normal (VObject ((("code", code)
                        :: (if truthy (e_message seen)
                            then [("message", e_message seen)] else []))
                       ++ [("data", VObject data)]))
    /\ has_key "name" data = false
    /\ has_key "message" data = false
    /\ has_key "rpcCode" data = false
    /\ has_key "stack" data = truthy (e_stack seen) && developmentMode this.
Proof.
  cbv zeta.
  assert (Hshape : forall code seen,
             exists data,
               envelope this code seen
               = VObject ((("code", code)
                           :: (if truthy (e_message seen)
                               then [("message", e_message seen)] else []))
                          ++ [("data", VObject data)])
               /\ has_key "name" data = false
               /\ has_key "message" data = false
               /\ has_key "rpcCode" data = false
               /\ has_key "stack" data = truthy (e_stack seen) && developmentMode this).
  { intros code seen. unfold envelope.
    eexists. split; [destruct (truthy (e_message seen)); reflexivity |].
    rewrite !has_key_copy_props.
    rewrite (has_key_filter_out reserved_rpc "name" (e_own seen) eq_refl),
            (has_key_filter_out reserved_rpc "message" (e_own seen) eq_refl),
            (has_key_filter_out reserved_rpc "rpcCode" (e_own seen) eq_refl),
            (has_key_filter_out reserved_rpc "stack" (e_own seen) eq_refl).
    destruct (truthy (e_stack seen) && developmentMode this); repeat split. }
  unfold BaseDriver.processJsonError. destruct error as [s|e].
  - destruct (Hshape (e_rpcCode (InternalError_new s)) (InternalError_new s))
      as (data & -> & Hrest).
    exists data. split; [reflexivity | exact Hrest].
  - destruct (e_isRpcError e).
    + destruct (Hshape (e_rpcCode e) e) as (data & -> & Hrest).
      exists data. split; [reflexivity | exact Hrest].
    + destruct (Hshape ServerError_rpcCode e) as (data & -> & Hrest).
      exists data. split; [reflexivity | exact Hrest].
Qed.
